(** * Bright Data search-engine component: a shallow embedding

    Embedding of
    [src/backend/base/langflow/components/brightdata/brightdata_search_engine.py]
    (class [BrightDataSearchEngineComponent]) and the properties of its
    [search_web] operation.

    Conventions.
    - A Python [str] is a sequence of Unicode code points: [list N].  The
      length [len(s)] is the number of code points, [s.strip()] removes the
      code points for which [str.isspace] holds, and a [str] may hold lone
      surrogates (U+D800..U+DFFF), which the strict UTF-8 codec refuses.
    - A Python [dict] with literal keys is a [gmap string _].
    - An exception is a value; the [try]/[except] of [search_web] is a
      combinator on computations that may raise.
    - [str(n)] of an [int] raises [ValueError] beyond the interpreter's
      limit on the digits of a conversion (4300 by default). *)

From stdpp Require Import gmap strings list fin_maps pretty.
From Stdlib Require Import ZArith NArith Ascii.

Local Open Scope N_scope.

(** ** Python strings *)

Module PyStr.

(** Code points of an ASCII literal of the source. *)
Definition lit (s : string) : list N :=
  N_of_ascii <$> String.list_ascii_of_string s.

(** [str.isspace] on one code point (CPython's [_PyUnicode_IsWhitespace]). *)
Definition isspace (c : N) : bool :=
  ((0x09 <=? c) && (c <=? 0x0D))
  || ((0x1C <=? c) && (c <=? 0x20))
  || (c =? 0x85) || (c =? 0xA0) || (c =? 0x1680)
  || ((0x2000 <=? c) && (c <=? 0x200A))
  || (c =? 0x2028) || (c =? 0x2029) || (c =? 0x202F)
  || (c =? 0x205F) || (c =? 0x3000).

Fixpoint lstrip (s : list N) : list N :=
  match s with
  | c :: s' => if isspace c then lstrip s' else s
  | [] => []
  end.

Definition rstrip (s : list N) : list N := rev (lstrip (rev s)).

(** [s.strip()] *)
Definition strip (s : list N) : list N := rstrip (lstrip s).

(** The decimal digits of an [int], with its sign. *)
Definition of_int (n : Z) : list N := lit (pretty n).

(** [sys.get_int_max_str_digits()], as the interpreter starts. *)
Definition int_max_str_digits : Z := 4300.

(** Whether [str(n)] converts the [int] [n]: it has no more digits than the
    limit. *)
Definition int_converts (n : Z) : bool :=
  (Z.abs n <? 10 ^ int_max_str_digits)%Z.

(** [sub in s] *)
Definition contains (s sub : list N) : Prop :=
  ∃ pre post, s = pre ++ sub ++ post.

End PyStr.

Abbreviation str := (list N) (only parsing).

(** [py "abc"] is the Python literal ["abc"]. *)
Abbreviation py := PyStr.lit.
Arguments PyStr.lit : simpl never.
Arguments PyStr.of_int : simpl never.
Arguments PyStr.int_converts : simpl never.

(** ** Exceptions *)

(** The exception classes that matter to [except requests.RequestException]:
    the class itself, two of its subclasses, and classes outside of it. *)
Inductive exc_class :=
| RequestException
| ConnectionError
| Timeout
| UnicodeEncodeError
| ValueError
| RuntimeError.

(** [issubclass(c, requests.RequestException)] *)
Definition is_RequestException (c : exc_class) : bool :=
  match c with
  | RequestException | ConnectionError | Timeout => true
  | UnicodeEncodeError | ValueError | RuntimeError => false
  end.

(** An exception object: its class and [str(e)]. *)
Record exception := Exc { exc_type : exc_class; exc_msg : str }.

Inductive result (A : Type) :=
| Return (a : A)
| Raise (e : exception).
Arguments Return {A} a.
Arguments Raise {A} e.

(** A call that returns goes on; one that raises ends what follows. *)
Global Instance result_ret : MRet result := λ A a, Return a.

Global Instance result_bind : MBind result := λ A B k r,
  match r with
  | Return a => k a
  | Raise e => Raise e
  end.

Global Instance result_fmap : FMap result := λ A B f r,
  match r with
  | Return a => Return (f a)
  | Raise e => Raise e
  end.

(** ** Python values that reach the component *)

Inductive pyval :=
| VNone
| VStr (s : str)
| VInt (n : Z).

Global Instance pyval_eq_dec : EqDecision pyval.
Proof. solve_decision. Defined.

(** The [ValueError] of a conversion beyond the digit limit.  Nothing here
    reads its [str(e)], whose wording varies with the interpreter. *)
Definition digits_exceeded : exception :=
  Exc ValueError
    (py "Exceeds the limit (4300 digits) for integer string conversion").

(** [str(v)], and [format(v)] in an f-string *)
Definition py_str (v : pyval) : result str :=
  match v with
  | VNone => Return (py "None")
  | VStr s => Return s
  | VInt n =>
      if PyStr.int_converts n then Return (PyStr.of_int n)
      else Raise digits_exceeded
  end.

(** [bool(v)] *)
Definition truthy (v : pyval) : bool :=
  match v with
  | VNone => false
  | VStr s => negb (bool_decide (s = []))
  | VInt n => negb (n =? 0)%Z
  end.

(** [a == b] *)
Definition py_eq (a b : pyval) : bool := bool_decide (a = b).

(** ** [urllib.parse.quote]

    [quote(string)] with the defaults [safe='/'], [encoding='utf-8'],
    [errors='strict']: the string is encoded to UTF-8, and every byte that
    is not a letter, a digit or one of [_.-~/] is written [%XX]. *)

Module Urllib.

(** U+D800..U+DFFF *)
Definition is_surrogate (c : N) : bool := (0xD800 <=? c) && (c <=? 0xDFFF).

(** UTF-8 encoding of one code point; [None] for a lone surrogate.  The
    code points of a [str] are below 0x110000, where the first byte of the
    four-byte form is below 0xF8; the mask keeps it a byte beyond. *)
Definition utf8_char (c : N) : option (list N) :=
  if c <? 0x80 then Some [c]
  else if c <? 0x800 then
    Some [N.lor 0xC0 (N.shiftr c 6); N.lor 0x80 (N.land c 0x3F)]
  else if is_surrogate c then None
  else if c <? 0x10000 then
    Some [N.lor 0xE0 (N.shiftr c 12);
          N.lor 0x80 (N.land (N.shiftr c 6) 0x3F);
          N.lor 0x80 (N.land c 0x3F)]
  else
    Some [N.land (N.lor 0xF0 (N.shiftr c 18)) 0xFF;
          N.lor 0x80 (N.land (N.shiftr c 12) 0x3F);
          N.lor 0x80 (N.land (N.shiftr c 6) 0x3F);
          N.lor 0x80 (N.land c 0x3F)].

(** The [UnicodeEncodeError] of the strict codec.  Nothing here reads its
    [str(e)]; the record holds the [reason] attribute in its place. *)
Definition surrogates_not_allowed : exception :=
  Exc UnicodeEncodeError (py "surrogates not allowed").

(** [string.encode('utf-8', 'strict')] *)
Fixpoint encode (s : str) : result (list N) :=
  match s with
  | [] => Return []
  | c :: s' =>
      match utf8_char c with
      | None => Raise surrogates_not_allowed
      | Some bs =>
          match encode s' with
          | Return r => Return (bs ++ r)
          | Raise e => Raise e
          end
      end
  end.

(** [_ALWAYS_SAFE] plus the default [safe='/'] *)
Definition is_safe (b : N) : bool :=
  ((0x41 <=? b) && (b <=? 0x5A))        (* A-Z *)
  || ((0x61 <=? b) && (b <=? 0x7A))     (* a-z *)
  || ((0x30 <=? b) && (b <=? 0x39))     (* 0-9 *)
  || (b =? 0x5F) || (b =? 0x2E) || (b =? 0x2D) || (b =? 0x7E)  (* _ . - ~ *)
  || (b =? 0x2F).                       (* / *)

Definition hex_digit (d : N) : N :=
  if d <? 10 then 0x30 + d else 0x37 + d.

(** ['%{:02X}'.format(b)] *)
Definition percent (b : N) : list N :=
  [0x25; hex_digit (b / 16); hex_digit (b mod 16)].

Definition quote_byte (b : N) : list N :=
  if is_safe b then [b] else percent b.

(** [quote_from_bytes(bs, safe='/')] *)
Definition quote_from_bytes (bs : list N) : str :=
  concat (quote_byte <$> bs).

(** [urllib.parse.quote(string)] *)
Definition quote (s : str) : result str :=
  match encode s with
  | Return bs => Return (quote_from_bytes bs)
  | Raise e => Raise e
  end.

End Urllib.

(** ** The component *)

(** What [self.query_input] may hold: an object with a [text] attribute (a
    [Message]) or a plain value. *)
Inductive query_input_t :=
| Message (text : pyval)
| Plain (v : pyval).

(** The three declared inputs of [BrightDataSearchEngineComponent]. *)
Record component := Component {
  api_token : pyval;
  query_input : query_input_t;
  engine : pyval
}.

(** [_build_search_url(self, engine, query)] *)
Definition _build_search_url (engine : pyval) (query : str) : result str :=
  match Urllib.quote query with
  | Raise e => Raise e
  | Return encoded_query =>
      if py_eq engine (VStr (py "yandex")) then
        Return (py "https://yandex.com/search/?text=" ++ encoded_query)
      else if py_eq engine (VStr (py "bing")) then
        Return (py "https://www.bing.com/search?q=" ++ encoded_query)
      else
        Return (py "https://www.google.com/search?q=" ++ encoded_query)
  end.

(** [get_query_from_input(self)] *)
Definition get_query_from_input (self : component) : result str :=
  match query_input self with
  | Message text => PyStr.strip <$> py_str text
  | Plain v => PyStr.strip <$> py_str (if truthy v then v else VStr (py ""))
  end.

(** Modelled from the spec: the host framework's [Data] class
    ([langflow.schema.Data]) is not part of the component's file.  The
    result record is "a text payload plus a structured map"; the record
    below holds the two keyword arguments [search_web] passes to it. *)
Record Data := mk_Data {
  text : str;
  data : gmap string pyval
}.

(** ** The [requests] boundary *)

Module Requests.

(** One call [requests.post(url, json=..., headers=..., timeout=...)]. *)
Record call := Post {
  url : str;
  json : gmap string pyval;
  headers : gmap string str;
  timeout : Z
}.

(** The attributes of a response object that the component reads.  The
    status code is the three-digit number of the status line. *)
Record response := Response {
  status_code : Z;
  text : str
}.

(** The remote side: what a call answers, a response or an exception. *)
Definition network := call → result response.

End Requests.

(** ** Computations of a method body

    A running [search_web] has the requests sent so far (the outside
    world) and its local variable [query], unbound until assigned. *)

Record frame := Frame {
  sent : list Requests.call;
  locals_query : option str
}.

Definition M (A : Type) : Type := frame → result A * frame.

Global Instance M_ret : MRet M := λ A a fr, (Return a, fr).

Global Instance M_bind : MBind M := λ A B k m fr,
  match m fr with
  | (Return a, fr') => k a fr'
  | (Raise e, fr') => (Raise e, fr')
  end.

(** A call that returns or raises without touching the frame. *)
Definition lift {A} (r : result A) : M A := λ fr, (r, fr).

(** [query = <call>]: the local is bound when the call has returned. *)
Definition assign_query (r : result str) : M str :=
  λ fr,
    match r with
    | Return v => (Return v, Frame (sent fr) (Some v))
    | Raise e => (Raise e, fr)
    end.

(** [requests.post(...)] against the network [net]: the call is sent, and
    its answer returned or raised. *)
Definition post (net : Requests.network) (c : Requests.call)
  : M Requests.response :=
  λ fr, (net c, Frame (sent fr ++ [c]) (locals_query fr)).

(** [try: body except <catches> as e: handler(e)] *)
Definition try_except {A} (body : M A) (catches : exc_class → bool)
    (handler : exception → M A) : M A :=
  λ fr,
    match body fr with
    | (Raise e, fr') =>
        if catches (exc_type e) then handler e fr' else (Raise e, fr')
    | (Return a, fr') => (Return a, fr')
    end.

(** ** [search_web] *)

(** The [try] block of [search_web]. *)
Definition search_web_try (self : component) (net : Requests.network)
  : M Data :=
  query ← assign_query (get_query_from_input self);
  if bool_decide (query = []) then
    let error_msg := py "Search query is required" in
    mret (mk_Data error_msg
            {[ "status" := VStr (py "error"); "error" := VStr error_msg ]})
  else
    search_url ← lift (_build_search_url (engine self) query);
    token ← lift (py_str (api_token self));
    let headers : gmap string str :=
      {[ "authorization" := py "Bearer " ++ token;
         "Content-Type" := py "application/json" ]} in
    let payload : gmap string pyval :=
      {[ "url" := VStr search_url;
         "zone" := VStr (py "mcp_unlocker");
         "format" := VStr (py "raw");
         "data_format" := VStr (py "markdown") ]} in
    response ← post net
      (Requests.Post (py "https://api.brightdata.com/request")
         payload headers 120);
    if (Requests.status_code response =? 200)%Z then
      let results := Requests.text response in
      mret (mk_Data results
              {[ "query" := VStr query;
                 "engine" := engine self;
                 "search_url" := VStr search_url;
                 "status" := VStr (py "success");
                 "results_length" := VInt (Z.of_nat (length results)) ]})
    else
      let error_msg :=
        py "Error searching: HTTP "
        ++ PyStr.of_int (Requests.status_code response)
        ++ py " - " ++ Requests.text response in
      mret (mk_Data error_msg
              {[ "query" := VStr query;
                 "engine" := engine self;
                 "status" := VStr (py "error");
                 "error" := VStr error_msg ]}).

(** The [except requests.RequestException as e] block. *)
Definition search_web_except (self : component) (e : exception) : M Data :=
  λ fr,
    let error_msg := py "Exception occurred while searching: " ++ exc_msg e in
    (Return (mk_Data error_msg
               {[ "query" := VStr (match locals_query fr with
                                   | Some query => query
                                   | None => py "unknown"
                                   end);
                  "engine" := engine self;
                  "status" := VStr (py "error");
                  "error" := VStr error_msg ]}),
     fr).

(** [search_web(self)], called when the requests in [log] have been sent:
    what it returns or raises, and the requests sent when it is over. *)
Definition search_web (self : component) (net : Requests.network)
    (log : list Requests.call) : result Data * list Requests.call :=
  let '(r, fr) :=
    try_except (search_web_try self net) is_RequestException
      (search_web_except self) (Frame log None) in
  (r, sent fr).

(** ** Vocabulary of the statements *)

(** A network that answers every call with [r]. *)
Definition answers (r : result Requests.response) : Requests.network :=
  λ _, r.

(** The call [search_web] makes once [search_url] is built and the token
    formatted ([token] is [str(self.api_token)]): the arguments of its
    [requests.post]. *)
Definition the_post (token search_url : str) : Requests.call :=
  Requests.Post (py "https://api.brightdata.com/request")
    {[ "url" := VStr search_url;
       "zone" := VStr (py "mcp_unlocker");
       "format" := VStr (py "raw");
       "data_format" := VStr (py "markdown") ]}
    {[ "authorization" := py "Bearer " ++ token;
       "Content-Type" := py "application/json" ]}
    120.

(** A string that the strict UTF-8 codec accepts. *)
Definition encodable (s : str) : bool :=
  forallb (λ c, negb (Urllib.is_surrogate c)) s.

(** A component with the token ["TOKEN"], a plain-string query and a
    selector. *)
Definition demo (q : str) (eng : string) : component :=
  Component (VStr (py "TOKEN")) (Plain (VStr q)) (VStr (py eng)).

(** The options and the default value the class declares for its [engine]
    dropdown ([inputs], [DropdownInput(name="engine", ...)]). *)
Definition engine_options : list str := [py "google"; py "bing"; py "yandex"].
Definition engine_value : str := py "google".

(** The least [int] that [str] does not convert: 1 followed by 4300
    zeros. *)
Definition huge : Z := (10 ^ 4300)%Z.

(** A string of whitespace only (the empty one included). *)
Definition blank (s : str) : bool := forallb PyStr.isspace s.

(** The code points a [str] can hold: U+0000..U+10FFFF. *)
Definition code_points (s : str) : bool := forallb (λ c, c <? 0x110000) s.

(** What [quote] writes: the safe characters and the percent sign. *)
Definition quoted_char (c : N) : bool := Urllib.is_safe c || (c =? 0x25).

(** The record of the empty-query validation error. *)
Definition validation_record : Data :=
  mk_Data (py "Search query is required")
    {[ "status" := VStr (py "error");
       "error" := VStr (py "Search query is required") ]}.

(** ** Standard percent-encoding

    Following the spec's words ("percent-encoded ... per standard
    encoding"): the percent-encoding of RFC 3986 applied to the UTF-8
    octets (RFC 3629) of a string.  An octet that is an unreserved
    character (a letter, a digit, [-], [.], [_], [~]) or the slash stands
    for itself; any other octet is written [%] and its two uppercase
    hexadecimal digits.  This is what the built URL is compared with. *)

Module Standard.

Definition unreserved : str :=
  py "ABCDEFGHIJKLMNOPQRSTUVWXYZabcdefghijklmnopqrstuvwxyz0123456789-._~".

Definition hexdig : str := py "0123456789ABCDEF".

(** The octets of a code point (the table of RFC 3629, section 3). *)
Definition octets (c : N) : list N :=
  if c <? 0x80 then [c]
  else if c <? 0x800 then [192 + c / 64; 128 + c mod 64]
  else if c <? 0x10000 then
    [224 + c / 4096; 128 + (c / 64) mod 64; 128 + c mod 64]
  else
    [240 + c / 262144; 128 + (c / 4096) mod 64; 128 + (c / 64) mod 64;
     128 + c mod 64].

Definition pct_encoded (b : N) : str :=
  py "%" ++ [nth (N.to_nat (b / 16)) hexdig 0;
             nth (N.to_nat (b mod 16)) hexdig 0].

Definition octet (b : N) : str :=
  if bool_decide (b ∈ unreserved) || (b =? 0x2F) then [b]
  else pct_encoded b.

Definition percent_encoding (s : str) : str :=
  flat_map (λ c, flat_map octet (octets c)) s.

End Standard.

(** Runs the body of [search_web] up to its first call that depends on the
    input. *)
Ltac run_search_web :=
  unfold search_web, try_except, search_web_try, search_web_except,
    mbind, M_bind, mret, M_ret, assign_query, lift, post;
  cbv beta iota delta [sent locals_query].

(** ** The code on small inputs *)

Example build_space :
  _build_search_url (VStr (py "bing")) (py "a b") =
  Return (py "https://www.bing.com/search?q=a%20b").
Proof. reflexivity. Qed.

Example build_surrogate :
  _build_search_url (VStr (py "google")) [0xD800] =
  Raise Urllib.surrogates_not_allowed.
Proof. reflexivity. Qed.

Example query_blank :
  get_query_from_input (Component VNone (Plain (VStr (py "  "))) VNone)
  = Return [].
Proof. reflexivity. Qed.

Example run_200 :
  fst (search_web (demo (py "rocq") "google")
         (answers (Return (Requests.Response 200 (py "X")))) []) =
  Return (mk_Data (py "X")
            {[ "query" := VStr (py "rocq");
               "engine" := VStr (py "google");
               "search_url" := VStr (py "https://www.google.com/search?q=rocq");
               "status" := VStr (py "success");
               "results_length" := VInt 1 ]}).
Proof. reflexivity. Qed.

Example run_503 :
  fst (search_web (demo (py "rocq") "google")
         (answers (Return (Requests.Response 503 (py "busy")))) []) =
  Return (mk_Data (py "Error searching: HTTP 503 - busy")
            {[ "query" := VStr (py "rocq");
               "engine" := VStr (py "google");
               "status" := VStr (py "error");
               "error" := VStr (py "Error searching: HTTP 503 - busy") ]}).
Proof. reflexivity. Qed.

Example run_connection_error :
  search_web (demo (py "rocq") "yandex")
    (answers (Raise (Exc ConnectionError (py "refused")))) [] =
  (Return (mk_Data (py "Exception occurred while searching: refused")
             {[ "query" := VStr (py "rocq");
                "engine" := VStr (py "yandex");
                "status" := VStr (py "error");
                "error" :=
                  VStr (py "Exception occurred while searching: refused") ]}),
   [the_post (py "TOKEN") (py "https://yandex.com/search/?text=rocq")]).
Proof. reflexivity. Qed.

Example run_foreign_exception :
  fst (search_web (demo (py "rocq") "google")
         (answers (Raise (Exc RuntimeError (py "boom")))) []) =
  Raise (Exc RuntimeError (py "boom")).
Proof. reflexivity. Qed.

Example query_of_message_none :
  get_query_from_input (Component VNone (Message VNone) VNone)
  = Return (py "None").
Proof. reflexivity. Qed.

Example query_of_int :
  get_query_from_input (Component VNone (Plain (VInt 42)) VNone)
  = Return (py "42").
Proof. vm_compute. reflexivity. Qed.

Example query_of_huge_int :
  get_query_from_input (Component VNone (Plain (VInt huge)) VNone)
  = Raise digits_exceeded.
Proof. vm_compute. reflexivity. Qed.

Example run_huge_token :
  search_web (Component (VInt huge) (Plain (VStr (py "rocq"))) VNone)
    (answers (Return (Requests.Response 200 (py "X")))) []
  = (Raise digits_exceeded, []).
Proof. vm_compute. reflexivity. Qed.

(** ** Strings *)

Section Strings.

Lemma lstrip_blank (s : str) :
  forallb PyStr.isspace s = true → PyStr.lstrip s = [].
Proof.
  induction s as [|c s IH]; simpl; [done|].
  intros [Hc Hs]%andb_true_iff. rewrite Hc. auto.
Qed.

Lemma strip_blank (s : str) :
  forallb PyStr.isspace s = true → PyStr.strip s = [].
Proof.
  intros H. unfold PyStr.strip. by rewrite (lstrip_blank s H).
Qed.

Lemma contains_app (a s b : str) : PyStr.contains (a ++ s ++ b) s.
Proof. by exists a, b. Qed.

Lemma contains_app_r (a s : str) : PyStr.contains (a ++ s) s.
Proof. exists a, []. by rewrite app_nil_r. Qed.

End Strings.

(** ** Percent-encoding *)

Section Quote.

Lemma hex_digit_not_space (d : N) : Urllib.hex_digit d ≠ 0x20.
Proof. unfold Urllib.hex_digit. destruct (N.ltb_spec d 10); lia. Qed.

Lemma quote_byte_no_space (b : N) : 0x20 ∉ Urllib.quote_byte b.
Proof.
  unfold Urllib.quote_byte.
  destruct (Urllib.is_safe b) eqn:Hs.
  - intros <-%list_elem_of_singleton. by vm_compute in Hs.
  - unfold Urllib.percent. intros Hin.
    repeat (apply elem_of_cons in Hin as [Hin|Hin]);
      try discriminate Hin;
      try (symmetry in Hin; by apply hex_digit_not_space in Hin).
    by apply not_elem_of_nil in Hin.
Qed.

Lemma quote_from_bytes_no_space (bs : list N) :
  0x20 ∉ Urllib.quote_from_bytes bs.
Proof.
  unfold Urllib.quote_from_bytes.
  induction bs as [|b bs IH]; simpl.
  - apply not_elem_of_nil.
  - rewrite elem_of_app. intros [H|H]; [by apply quote_byte_no_space in H|done].
Qed.

Lemma quote_from_bytes_app (a b : list N) :
  Urllib.quote_from_bytes (a ++ b)
  = Urllib.quote_from_bytes a ++ Urllib.quote_from_bytes b.
Proof.
  unfold Urllib.quote_from_bytes. by rewrite fmap_app, concat_app.
Qed.

Lemma utf8_char_surrogate (c : N) :
  Urllib.utf8_char c = None ↔ Urllib.is_surrogate c = true.
Proof.
  unfold Urllib.utf8_char.
  destruct (c <? 0x80) eqn:H1; [split; [done|]|].
  { unfold Urllib.is_surrogate. intros [?%N.leb_le _]%andb_true_iff.
    apply N.ltb_lt in H1. lia. }
  destruct (c <? 0x800) eqn:H2; [split; [done|]|].
  { unfold Urllib.is_surrogate. intros [?%N.leb_le _]%andb_true_iff.
    apply N.ltb_lt in H2. lia. }
  destruct (Urllib.is_surrogate c); [done|].
  by destruct (c <? 0x10000).
Qed.

Lemma encode_encodable (s : str) :
  encodable s = true → ∃ bs, Urllib.encode s = Return bs.
Proof.
  induction s as [|c s IH]; simpl; [by exists []|].
  intros [Hc Hs]%andb_true_iff.
  destruct (Urllib.utf8_char c) as [bs|] eqn:Hu.
  - destruct (IH Hs) as [r ->]. by exists (bs ++ r).
  - apply utf8_char_surrogate in Hu. by rewrite Hu in Hc.
Qed.

Lemma encode_raises (s : str) (e : exception) :
  Urllib.encode s = Raise e →
  e = Urllib.surrogates_not_allowed ∧ encodable s = false.
Proof.
  revert e. induction s as [|c s IH]; simpl; intros e; [done|].
  destruct (Urllib.utf8_char c) as [bs|] eqn:Hu.
  - destruct (Urllib.encode s); [done|].
    intros [= <-]. destruct (IH _ eq_refl) as [-> ->].
    by rewrite andb_false_r.
  - intros [= <-]. apply utf8_char_surrogate in Hu. by rewrite Hu.
Qed.

Lemma encode_unencodable (s : str) :
  encodable s = false →
  Urllib.encode s = Raise Urllib.surrogates_not_allowed.
Proof.
  induction s as [|c s IH]; simpl; [done|]. intros H.
  destruct (Urllib.utf8_char c) as [bs|] eqn:Hu; [|done].
  destruct (Urllib.is_surrogate c) eqn:Hc.
  - apply utf8_char_surrogate in Hc. congruence.
  - simpl in H. by rewrite (IH H).
Qed.

Lemma encode_app (a b : str) (ra rb : list N) :
  Urllib.encode a = Return ra → Urllib.encode b = Return rb →
  Urllib.encode (a ++ b) = Return (ra ++ rb).
Proof.
  revert ra. induction a as [|c a IH]; simpl; intros ra.
  - by intros [= <-].
  - destruct (Urllib.utf8_char c) as [bs|]; [|done].
    destruct (Urllib.encode a) as [r|]; [|done].
    intros [= <-] Hb. rewrite (IH r eq_refl Hb). by rewrite app_assoc.
Qed.

Lemma encode_app_inv (a b : str) (r : list N) :
  Urllib.encode (a ++ b) = Return r →
  ∃ ra rb, Urllib.encode a = Return ra ∧ Urllib.encode b = Return rb
           ∧ r = ra ++ rb.
Proof.
  revert r. induction a as [|c a IH]; simpl; intros r.
  - intros H. by exists [], r.
  - destruct (Urllib.utf8_char c) as [bs|]; [|done].
    destruct (Urllib.encode (a ++ b)) as [r'|]; [|done].
    intros [= <-]. destruct (IH r' eq_refl) as (ra & rb & -> & -> & ->).
    exists (bs ++ ra), rb. by rewrite app_assoc.
Qed.

Lemma quote_encodable (s : str) :
  encodable s = true → ∃ q, Urllib.quote s = Return q ∧ 0x20 ∉ q.
Proof.
  intros [bs Hbs]%encode_encodable. unfold Urllib.quote. rewrite Hbs.
  eexists; split; [done|]. apply quote_from_bytes_no_space.
Qed.

Lemma quote_raises (s : str) (e : exception) :
  Urllib.quote s = Raise e →
  e = Urllib.surrogates_not_allowed ∧ encodable s = false.
Proof.
  unfold Urllib.quote. destruct (Urllib.encode s) eqn:He; [done|].
  intros [= <-]. by apply encode_raises.
Qed.

End Quote.

(** ** The URL builder *)

Section Builder.

Lemma build_inv (eng : pyval) (query url : str) :
  _build_search_url eng query = Return url →
  ∃ q, Urllib.quote query = Return q ∧
    ((eng = VStr (py "yandex")
      ∧ url = py "https://yandex.com/search/?text=" ++ q)
     ∨ (eng ≠ VStr (py "yandex") ∧ eng = VStr (py "bing")
        ∧ url = py "https://www.bing.com/search?q=" ++ q)
     ∨ (eng ≠ VStr (py "yandex") ∧ eng ≠ VStr (py "bing")
        ∧ url = py "https://www.google.com/search?q=" ++ q)).
Proof.
  unfold _build_search_url, py_eq.
  destruct (Urllib.quote query) as [q|]; [|done].
  intros H. exists q. split; [done|].
  repeat case_bool_decide; injection H as <-; auto.
Qed.

Lemma build_raises (eng : pyval) (query : str) (e : exception) :
  _build_search_url eng query = Raise e →
  e = Urllib.surrogates_not_allowed ∧ encodable query = false.
Proof.
  unfold _build_search_url.
  destruct (Urllib.quote query) as [q|e'] eqn:Hq.
  - by repeat destruct (py_eq _ _).
  - intros [= <-]. by apply quote_raises.
Qed.

Lemma build_unencodable (eng : pyval) (query : str) :
  encodable query = false →
  _build_search_url eng query = Raise Urllib.surrogates_not_allowed.
Proof.
  intros H. unfold _build_search_url, Urllib.quote.
  by rewrite (encode_unencodable query H).
Qed.

Lemma build_encodable (eng : pyval) (query : str) :
  encodable query = true → ∃ url, _build_search_url eng query = Return url.
Proof.
  intros (q & Hq & _)%quote_encodable.
  unfold _build_search_url. rewrite Hq.
  repeat destruct (py_eq _ _); eauto.
Qed.

Lemma build_no_space (eng : pyval) (query url : str) :
  _build_search_url eng query = Return url → 0x20 ∉ url.
Proof.
  intros (q & Hq & Hcases)%build_inv.
  assert (0x20 ∉ q) as Hnq.
  { unfold Urllib.quote in Hq. destruct (Urllib.encode query); [|done].
    injection Hq as <-. apply quote_from_bytes_no_space. }
  destruct Hcases as [(_ & ->)|[(_ & _ & ->)|(_ & _ & ->)]];
    rewrite elem_of_app; intros [Hin|Hin]; try done;
    by vm_compute in Hin; repeat (apply elem_of_cons in Hin as [Hin|Hin]; [done|]);
       apply not_elem_of_nil in Hin.
Qed.

End Builder.

Section Url.

Lemma Return_inj {A} (a b : A) : Return a = Return b → a = b.
Proof. by intros [= ->]. Qed.

Lemma build_template (eng : pyval) (query url : str) :
  _build_search_url eng query = Return url →
  ∃ template q,
    url = template ++ q
    ∧ template ∈ [py "https://yandex.com/search/?text=";
                  py "https://www.bing.com/search?q=";
                  py "https://www.google.com/search?q="]
    ∧ Urllib.quote query = Return q
    ∧ ∀ query' q', Urllib.quote query' = Return q' →
        _build_search_url eng query' = Return (template ++ q').
Proof.
  unfold _build_search_url.
  destruct (Urllib.quote query) as [q|]; [|done].
  destruct (py_eq eng (VStr (py "yandex"))) eqn:Hy;
    [|destruct (py_eq eng (VStr (py "bing"))) eqn:Hb];
    intros <-%Return_inj; eexists _, q; (split; [done|]);
    (split; [set_solver|]); (split; [done|]);
    intros query' q' ->; by rewrite ?Hy, ?Hb.
Qed.

End Url.

(** ** Trimming *)

Section Trimming.

Lemma lstrip_split (s : str) :
  ∃ pre, s = pre ++ PyStr.lstrip s ∧ blank pre = true.
Proof.
  induction s as [|c s (pre & IH & Hpre)]; [by exists []|].
  simpl. destruct (PyStr.isspace c) eqn:Hc.
  - exists (c :: pre). split; [by rewrite IH at 1|].
    unfold blank. simpl. by rewrite Hc.
  - by exists [].
Qed.

Lemma lstrip_head (s r : str) (c : N) :
  PyStr.lstrip s = c :: r → PyStr.isspace c = false.
Proof.
  induction s as [|c' s IH]; simpl; [done|].
  destruct (PyStr.isspace c') eqn:Hc; [done|]. by intros [= <- _].
Qed.

Lemma lstrip_fixed (r : str) (c : N) :
  PyStr.isspace c = false → PyStr.lstrip (c :: r) = c :: r.
Proof. intros Hc. simpl. by rewrite Hc. Qed.

Lemma blank_app (a b : str) : blank (a ++ b) = blank a && blank b.
Proof. unfold blank. apply forallb_app. Qed.

Lemma blank_rev (a : str) : blank (rev a) = blank a.
Proof.
  induction a as [|c a IH]; [done|].
  simpl. rewrite blank_app, IH. unfold blank at 2 3. simpl.
  rewrite andb_true_r. apply andb_comm.
Qed.

Lemma rstrip_split (s : str) :
  ∃ post, s = PyStr.rstrip s ++ post ∧ blank post = true.
Proof.
  unfold PyStr.rstrip.
  destruct (lstrip_split (rev s)) as (pre & Hs & Hpre).
  exists (rev pre). split; [|by rewrite blank_rev].
  rewrite <- rev_app_distr, <- Hs. by rewrite rev_involutive.
Qed.

Lemma rstrip_last (s r : str) (c : N) :
  PyStr.rstrip s = r ++ [c] → PyStr.isspace c = false.
Proof.
  unfold PyStr.rstrip. intros H. apply (f_equal (@rev N)) in H.
  rewrite rev_involutive, rev_app_distr in H. simpl in H.
  by apply lstrip_head in H.
Qed.

Lemma rstrip_fixed (r : str) (c : N) :
  PyStr.isspace c = false → PyStr.rstrip (r ++ [c]) = r ++ [c].
Proof.
  intros Hc. unfold PyStr.rstrip. rewrite rev_app_distr. simpl.
  rewrite Hc. simpl. by rewrite rev_involutive.
Qed.

(** A string is its trimmed form between two blank strings. *)
Lemma strip_split (s : str) :
  ∃ pre post,
    s = pre ++ PyStr.strip s ++ post ∧ blank pre = true ∧ blank post = true.
Proof.
  unfold PyStr.strip.
  destruct (lstrip_split s) as (pre & Hs & Hpre).
  destruct (rstrip_split (PyStr.lstrip s)) as (post & Hl & Hpost).
  exists pre, post. by rewrite <- Hl.
Qed.

Lemma strip_last (s r : str) (c : N) :
  PyStr.strip s = r ++ [c] → PyStr.isspace c = false.
Proof. apply rstrip_last. Qed.

Lemma strip_head (s r : str) (c : N) :
  PyStr.strip s = c :: r → PyStr.isspace c = false.
Proof.
  unfold PyStr.strip. intros H.
  destruct (rstrip_split (PyStr.lstrip s)) as (post & Hl & _).
  rewrite H in Hl. by apply lstrip_head in Hl.
Qed.

(** A string with no blank at either end is its own trimmed form. *)
Lemma strip_fixed (s : str) :
  (∀ c r, s = c :: r → PyStr.isspace c = false) →
  (∀ r c, s = r ++ [c] → PyStr.isspace c = false) →
  PyStr.strip s = s.
Proof.
  intros Hhead Hlast. unfold PyStr.strip.
  destruct s as [|c r]; [done|].
  rewrite (lstrip_fixed r c (Hhead c r eq_refl)).
  destruct (exists_last (l := c :: r)) as (r' & c' & Hr); [done|].
  rewrite Hr. apply rstrip_fixed. by apply (Hlast r' c').
Qed.

Lemma strip_strip (s : str) : PyStr.strip (PyStr.strip s) = PyStr.strip s.
Proof.
  apply strip_fixed; intros c r H; [by eapply strip_head|by eapply strip_last].
Qed.

Lemma strip_empty_blank (s : str) : PyStr.strip s = [] ↔ blank s = true.
Proof.
  split; [|apply strip_blank].
  intros H. destruct (strip_split s) as (pre & post & Hs & Hpre & Hpost).
  rewrite H in Hs. rewrite Hs, blank_app, Hpre. simpl. exact Hpost.
Qed.

(** The text [get_query_from_input] trims: [str(text)] for a message, and
    [str(v or "")] for a plain value. *)
Lemma get_query_strip (self : component) (query : str) :
  get_query_from_input self = Return query →
  ∃ raw,
    match query_input self with
    | Message t => py_str t
    | Plain v => if truthy v then py_str v else Return []
    end = Return raw
    ∧ query = PyStr.strip raw.
Proof.
  unfold get_query_from_input. destruct (query_input self) as [t|v].
  - destruct (py_str t) as [raw|]; [|done]. intros [= <-]. by exists raw.
  - destruct (truthy v).
    + destruct (py_str v) as [raw|]; [|done]. intros [= <-]. by exists raw.
    + intros [= <-]. by exists [].
Qed.

(** A string input, plain or the text of a message, is trimmed. *)
Lemma get_query_of_str (self : component) (s : str) :
  query_input self = Plain (VStr s) ∨ query_input self = Message (VStr s) →
  get_query_from_input self = Return (PyStr.strip s).
Proof.
  unfold get_query_from_input. intros [-> | ->]; [|done].
  cbn [truthy]. by case_bool_decide as Hs; cbn [negb]; [rewrite Hs|].
Qed.

End Trimming.

(** ** The bytes of the UTF-8 encoding *)

Section Utf8.

(** An "or" of bits that do not overlap is a sum. *)
Lemma lor_add_disjoint (h l k : N) :
  l < 2 ^ k → N.lor (h * 2 ^ k) l = h * 2 ^ k + l.
Proof.
  intros Hl.
  assert (N.land (h * 2 ^ k) l = 0) as Hland.
  { apply N.bits_inj_0. intros n. rewrite N.land_spec.
    destruct (N.lt_ge_cases n k) as [Hn|Hn].
    - by rewrite N.mul_pow2_bits_low.
    - rewrite andb_false_iff. right.
      destruct (N.eq_dec l 0) as [->|Hl0]; [apply N.bits_0|].
      apply N.bits_above_log2. apply N.log2_lt_pow2; [lia|].
      eapply N.lt_le_trans; [exact Hl|]. by apply N.pow_le_mono_r. }
  by rewrite <- N.lxor_lor, N.add_nocarry_lxor.
Qed.

Lemma digit64 (c : N) : c = 64 * (c / 64) + c mod 64 ∧ c mod 64 < 64.
Proof. split; [apply N.div_mod'|by apply N.mod_lt]. Qed.

(** Names the base-64 digits of the variables of the goal, for [lia]. *)
Ltac name_digits a :=
  let q := fresh "q" in
  let r := fresh "r" in
  destruct (digit64 a) as [? ?];
  set (q := a / 64) in *; set (r := a mod 64) in *; clearbody q r.

Ltac digits :=
  repeat match goal with
    | |- context [?a / 64] => is_var a; name_digits a
    | |- context [?a mod 64] => is_var a; name_digits a
    | H : context [?a / 64] |- _ => is_var a; name_digits a
    | H : context [?a mod 64] |- _ => is_var a; name_digits a
    end.

(** A continuation byte [0x80 | (x & 0x3F)]. *)
Lemma continuation_byte (x : N) :
  N.lor 0x80 (N.land x 0x3F) = 128 + x mod 64.
Proof.
  change 0x3F with (N.ones 6). rewrite N.land_ones.
  change 0x80 with (2 * 2 ^ 6).
  rewrite lor_add_disjoint; [done|]. by apply N.mod_lt.
Qed.

Lemma lead_byte_2 (c : N) :
  c < 0x800 → N.lor 0xC0 (N.shiftr c 6) = 192 + c / 64.
Proof.
  intros Hc. rewrite N.shiftr_div_pow2. change 0xC0 with (3 * 2 ^ 6).
  rewrite lor_add_disjoint; [done|].
  apply N.Div0.div_lt_upper_bound. vm_compute (2 ^ 6 * 2 ^ 6). lia.
Qed.

Lemma lead_byte_3 (c : N) :
  c < 0x10000 → N.lor 0xE0 (N.shiftr c 12) = 224 + c / 4096.
Proof.
  intros Hc. rewrite N.shiftr_div_pow2. change 0xE0 with (7 * 2 ^ 5).
  rewrite lor_add_disjoint; [done|].
  apply N.Div0.div_lt_upper_bound. vm_compute (2 ^ 12 * 2 ^ 5). lia.
Qed.

Lemma lead_byte_4 (c : N) :
  c < 0x110000 →
  N.land (N.lor 0xF0 (N.shiftr c 18)) 0xFF = 240 + c / 262144.
Proof.
  intros Hc. rewrite N.shiftr_div_pow2.
  assert (c / 2 ^ 18 < 5) as Hq.
  { apply N.Div0.div_lt_upper_bound. vm_compute (2 ^ 18 * 5). lia. }
  change 0xF0 with (15 * 2 ^ 4).
  rewrite lor_add_disjoint by (vm_compute (2 ^ 4); lia).
  change 0xFF with (N.ones 8). rewrite N.land_ones.
  change (2 ^ 18) with 262144 in *. change (15 * 2 ^ 4) with 240.
  apply N.mod_small. vm_compute (2 ^ 8). lia.
Qed.

(** Every code point is written as bytes. *)
Lemma utf8_char_bytes (c : N) (bs : list N) :
  Urllib.utf8_char c = Some bs → Forall (λ b, b < 256) bs.
Proof.
  assert (∀ x, N.lor 0x80 (N.land x 0x3F) < 256) as Hcont.
  { intros x. rewrite continuation_byte. pose proof (digit64 x). lia. }
  unfold Urllib.utf8_char.
  destruct (N.ltb_spec c 0x80) as [H1|H1].
  { intros [= <-]. repeat constructor; cbv beta; lia. }
  destruct (N.ltb_spec c 0x800) as [H2|H2].
  { intros [= <-]. repeat (constructor; [|by auto]); cbv beta.
    rewrite lead_byte_2 by done. digits. lia. }
  destruct (Urllib.is_surrogate c); [done|].
  destruct (N.ltb_spec c 0x10000) as [H3|H3]; intros [= <-];
    repeat (constructor; [|by auto]); cbv beta.
  - rewrite lead_byte_3 by done.
    change 4096 with (64 * 64). rewrite <- N.Div0.div_div. digits. lia.
  - change 0xFF with (N.ones 8). rewrite N.land_ones. by apply N.mod_lt.
Qed.

Lemma encode_bytes (s : str) (bs : list N) :
  Urllib.encode s = Return bs → Forall (λ b, b < 256) bs.
Proof.
  revert bs. induction s as [|c s IH]; simpl; intros bs.
  - intros [= <-]. constructor.
  - destruct (Urllib.utf8_char c) as [b|] eqn:Hu; [|done].
    destruct (Urllib.encode s) as [r|]; [|done].
    intros [= <-]. apply Forall_app. split; [by eapply utf8_char_bytes|auto].
Qed.

(** The arithmetic of the encoding of a code point. *)
Lemma utf8_char_cases (c : N) (bs : list N) :
  c < 0x110000 →
  Urllib.utf8_char c = Some bs →
  (c < 0x80 ∧ bs = [c])
  ∨ (0x80 ≤ c < 0x800 ∧ bs = [192 + c / 64; 128 + c mod 64])
  ∨ (0x800 ≤ c < 0x10000
     ∧ bs = [224 + c / 64 / 64; 128 + (c / 64) mod 64; 128 + c mod 64])
  ∨ (0x10000 ≤ c
     ∧ bs = [240 + c / 64 / 64 / 64; 128 + (c / 64 / 64) mod 64;
             128 + (c / 64) mod 64; 128 + c mod 64]).
Proof.
  intros Hc. unfold Urllib.utf8_char.
  destruct (N.ltb_spec c 0x80) as [H1|H1]; [intros [= <-]; by left|].
  destruct (N.ltb_spec c 0x800) as [H2|H2].
  { intros [= <-]. right; left.
    by rewrite lead_byte_2, continuation_byte. }
  destruct (Urllib.is_surrogate c); [done|].
  destruct (N.ltb_spec c 0x10000) as [H3|H3]; intros [= <-]; right; right.
  - left. rewrite lead_byte_3, !continuation_byte by done.
    rewrite !N.shiftr_div_pow2. change (2 ^ 6) with 64.
    change 4096 with (64 * 64). by rewrite <- !N.Div0.div_div.
  - right. rewrite lead_byte_4, !continuation_byte by done.
    rewrite !N.shiftr_div_pow2. change (2 ^ 6) with 64.
    change (2 ^ 12) with (64 * 64). change 262144 with (64 * 64 * 64).
    by rewrite <- !N.Div0.div_div.
Qed.

(** The encoding of a code point is read back from the front of a byte
    string in one way only. *)
Lemma utf8_char_prefix_inj (c1 c2 : N) (b1 b2 r1 r2 : list N) :
  c1 < 0x110000 → c2 < 0x110000 →
  Urllib.utf8_char c1 = Some b1 → Urllib.utf8_char c2 = Some b2 →
  b1 ++ r1 = b2 ++ r2 →
  c1 = c2 ∧ r1 = r2.
Proof.
  intros Hc1 Hc2 Hu1 Hu2 Happ.
  assert (c1 = c2) as ->.
  { destruct (utf8_char_cases c1 b1 Hc1 Hu1)
      as [[? ->]|[[? ->]|[[? ->]|[? ->]]]];
    destruct (utf8_char_cases c2 b2 Hc2 Hu2)
      as [[? ->]|[[? ->]|[[? ->]|[? ->]]]];
    simpl in Happ; injection Happ as Happ; intros; digits; lia. }
  split; [done|]. rewrite Hu1 in Hu2. injection Hu2 as <-.
  by apply app_inv_head in Happ.
Qed.

(** Strings of code points with the same UTF-8 encoding are equal. *)
Lemma encode_inj (s1 s2 : str) (bs : list N) :
  code_points s1 = true → code_points s2 = true →
  Urllib.encode s1 = Return bs → Urllib.encode s2 = Return bs →
  s1 = s2.
Proof.
  revert s2 bs. induction s1 as [|c1 s1 IH]; intros s2 bs Hv1 Hv2.
  - simpl. intros [= <-]. destruct s2 as [|c2 s2]; [done|]. simpl.
    destruct (Urllib.utf8_char c2) as [b|] eqn:Hu; [|done].
    destruct (Urllib.encode s2); [|done]. intros [= Hb].
    apply app_eq_nil in Hb as [-> _].
    unfold Urllib.utf8_char in Hu.
    by repeat (destruct (_ <? _) || destruct (Urllib.is_surrogate _)).
  - simpl. destruct (Urllib.utf8_char c1) as [b1|] eqn:Hu1; [|done].
    destruct (Urllib.encode s1) as [r1|] eqn:He1; [|done].
    intros [= <-].
    apply andb_true_iff in Hv1 as [Hc1%N.ltb_lt Hv1].
    destruct s2 as [|c2 s2]; simpl.
    { intros [= Hb]. symmetry in Hb. apply app_eq_nil in Hb as [-> _].
      unfold Urllib.utf8_char in Hu1.
      by repeat (destruct (_ <? _) || destruct (Urllib.is_surrogate _)). }
    destruct (Urllib.utf8_char c2) as [b2|] eqn:Hu2; [|done].
    destruct (Urllib.encode s2) as [r2|] eqn:He2; [|done].
    intros [= Hb].
    apply andb_true_iff in Hv2 as [Hc2%N.ltb_lt Hv2].
    destruct (utf8_char_prefix_inj c1 c2 b1 b2 r1 r2 Hc1 Hc2 Hu1 Hu2)
      as [-> ->]; [done|].
    f_equal. by eapply IH.
Qed.

End Utf8.

(** ** The characters of a quoted string *)

Section Percent.

Lemma lt_16_cases (d : N) :
  d < 16 → d ∈ [0; 1; 2; 3; 4; 5; 6; 7; 8; 9; 10; 11; 12; 13; 14; 15].
Proof.
  intros Hd. rewrite !elem_of_cons. lia.
Qed.

Lemma hex_digit_safe (d : N) : d < 16 → Urllib.is_safe (Urllib.hex_digit d) = true.
Proof.
  intros Hd%lt_16_cases.
  repeat (apply elem_of_cons in Hd as [->|Hd]; [reflexivity|]).
  by apply not_elem_of_nil in Hd.
Qed.

Lemma hex_digit_inj (d1 d2 : N) :
  d1 < 16 → d2 < 16 → Urllib.hex_digit d1 = Urllib.hex_digit d2 → d1 = d2.
Proof.
  unfold Urllib.hex_digit. intros H1 H2.
  destruct (N.ltb_spec d1 10), (N.ltb_spec d2 10); lia.
Qed.

Lemma nibbles (b : N) :
  b < 256 → b = 16 * (b / 16) + b mod 16 ∧ b / 16 < 16 ∧ b mod 16 < 16.
Proof.
  intros Hb. split; [apply N.div_mod'|]. split; [|by apply N.mod_lt].
  by apply N.Div0.div_lt_upper_bound.
Qed.

Lemma quoted_char_ascii (c : N) : quoted_char c = true → c < 0x80.
Proof.
  unfold quoted_char, Urllib.is_safe.
  rewrite !orb_true_iff, !andb_true_iff, !N.leb_le, !N.eqb_eq. lia.
Qed.

Lemma quote_byte_chars (b : N) :
  b < 256 → Forall (λ c, quoted_char c = true) (Urllib.quote_byte b).
Proof.
  intros (_ & Hhi & Hlo)%nibbles. unfold Urllib.quote_byte, quoted_char.
  destruct (Urllib.is_safe b) eqn:Hs.
  - apply Forall_singleton. by rewrite Hs.
  - unfold Urllib.percent. repeat apply Forall_cons_2; cbv beta;
      [done | by rewrite hex_digit_safe.. | apply Forall_nil_2].
Qed.

Lemma quote_from_bytes_chars (bs : list N) :
  Forall (λ b, b < 256) bs →
  Forall (λ c, quoted_char c = true) (Urllib.quote_from_bytes bs).
Proof.
  unfold Urllib.quote_from_bytes.
  induction 1 as [|b bs Hb _ IH]; simpl; [constructor|].
  apply Forall_app. split; [by apply quote_byte_chars|done].
Qed.

(** The escape of a byte is read back from the front of a string in one
    way only. *)
Lemma quote_byte_prefix_inj (b1 b2 : N) (r1 r2 : list N) :
  b1 < 256 → b2 < 256 →
  Urllib.quote_byte b1 ++ r1 = Urllib.quote_byte b2 ++ r2 →
  b1 = b2 ∧ r1 = r2.
Proof.
  intros (E1 & Hh1 & Hl1)%nibbles (E2 & Hh2 & Hl2)%nibbles.
  unfold Urllib.quote_byte, Urllib.percent.
  destruct (Urllib.is_safe b1) eqn:Hs1, (Urllib.is_safe b2) eqn:Hs2; simpl.
  - by intros [= -> ->].
  - intros [= -> _]. by vm_compute in Hs1.
  - intros [= <- _]. by vm_compute in Hs2.
  - intros [= Hh%hex_digit_inj Hl%hex_digit_inj ->]; try done.
    split; [|done]. rewrite E1, E2. by rewrite Hh, Hl.
Qed.

Lemma quote_from_bytes_inj (bs1 bs2 : list N) :
  Forall (λ b, b < 256) bs1 → Forall (λ b, b < 256) bs2 →
  Urllib.quote_from_bytes bs1 = Urllib.quote_from_bytes bs2 → bs1 = bs2.
Proof.
  unfold Urllib.quote_from_bytes.
  intros H1. revert bs2. induction H1 as [|b1 bs1 Hb1 _ IH];
    intros bs2 H2; destruct H2 as [|b2 bs2 Hb2 H2]; simpl; try done.
  - unfold Urllib.quote_byte, Urllib.percent. by destruct (Urllib.is_safe b2).
  - unfold Urllib.quote_byte, Urllib.percent. by destruct (Urllib.is_safe b1).
  - intros [-> Hr]%quote_byte_prefix_inj; try done. f_equal. by apply IH.
Qed.

(** A string of safe characters is quoted as itself. *)
Lemma quote_safe (s : str) :
  forallb Urllib.is_safe s = true → Urllib.quote s = Return s.
Proof.
  intros Hs. unfold Urllib.quote.
  assert (Urllib.encode s = Return s) as ->.
  { induction s as [|c s IH]; [done|]. simpl in *.
    apply andb_true_iff in Hs as [Hc Hs]. rewrite (IH Hs).
    unfold Urllib.utf8_char.
    assert (c < 0x80) as ->%N.ltb_lt; [|done].
    apply quoted_char_ascii. unfold quoted_char. by rewrite Hc. }
  unfold Urllib.quote_from_bytes. f_equal.
  induction s as [|c s IH]; [done|]. simpl in Hs.
  apply andb_true_iff in Hs as [Hc Hs].
  rewrite fmap_cons. cbn [concat]. rewrite (IH Hs).
  unfold Urllib.quote_byte. by rewrite Hc.
Qed.

Lemma quote_app (a b qa qb : str) :
  Urllib.quote a = Return qa → Urllib.quote b = Return qb →
  Urllib.quote (a ++ b) = Return (qa ++ qb).
Proof.
  unfold Urllib.quote.
  destruct (Urllib.encode a) as [ra|] eqn:Ha; [|done].
  destruct (Urllib.encode b) as [rb|] eqn:Hb; [|done].
  intros [= <-] [= <-]. rewrite (encode_app a b ra rb Ha Hb).
  by rewrite quote_from_bytes_app.
Qed.

End Percent.

(** ** [quote] and the standard percent-encoding *)

Section StandardEncoding.

(** A property checked on the numbers below [n] holds of them. *)
Lemma forallb_below (P : N → bool) (n : nat) :
  forallb P (N.of_nat <$> seq 0 n) = true →
  ∀ b, b < N.of_nat n → P b = true.
Proof.
  intros Hall b Hb. rewrite forallb_forall in Hall. apply Hall.
  apply list_elem_of_In, list_elem_of_fmap. exists (N.to_nat b).
  split; [by rewrite N2Nat.id|]. apply elem_of_seq. lia.
Qed.

Lemma unreserved_ascii (b : N) : b ∈ Standard.unreserved → b < 128.
Proof.
  intros Hin. vm_compute in Hin.
  repeat (apply elem_of_cons in Hin as [->|Hin]; [done|]).
  by apply not_elem_of_nil in Hin.
Qed.

(** The characters [quote] keeps are the unreserved ones and the slash. *)
Lemma is_safe_standard (b : N) :
  Urllib.is_safe b = bool_decide (b ∈ Standard.unreserved) || (b =? 0x2F).
Proof.
  destruct (N.lt_ge_cases b 128) as [Hb|Hb].
  - pose (check := λ x : N,
            Bool.eqb (Urllib.is_safe x)
              (bool_decide (x ∈ Standard.unreserved) || (x =? 0x2F))).
    apply eqb_prop. change (check b = true).
    apply (forallb_below check 128); [by vm_compute|done].
  - rewrite bool_decide_eq_false_2.
    + unfold Urllib.is_safe.
      repeat match goal with
        | |- context [?x <=? ?y] => destruct (N.leb_spec x y); try lia
        | |- context [?x =? ?y] => destruct (N.eqb_spec x y); try lia
        end; done.
    + intros Hin%unreserved_ascii. lia.
Qed.

(** The escape of a byte is the percent sign and its two hexadecimal
    digits. *)
Lemma percent_standard (b : N) :
  b < 256 → Urllib.percent b = Standard.pct_encoded b.
Proof.
  intros Hb.
  pose (check := λ x : N,
          bool_decide (Urllib.percent x = Standard.pct_encoded x)).
  assert (check b = true) as H%bool_decide_eq_true; [|done].
  apply (forallb_below check 256); [by vm_compute|done].
Qed.

Lemma quote_byte_standard (b : N) :
  b < 256 → Urllib.quote_byte b = Standard.octet b.
Proof.
  intros Hb. unfold Urllib.quote_byte, Standard.octet.
  rewrite <- is_safe_standard. by rewrite percent_standard.
Qed.

(** The bytes of a code point are the octets of RFC 3629. *)
Lemma utf8_char_standard (c : N) (bs : list N) :
  c < 0x110000 → Urllib.utf8_char c = Some bs → bs = Standard.octets c.
Proof.
  intros Hc Hu. unfold Standard.octets.
  change 4096 with (64 * 64). change 262144 with (64 * 64 * 64).
  rewrite <- !N.Div0.div_div.
  destruct (utf8_char_cases c bs Hc Hu)
    as [[H ->]|[[H ->]|[[H ->]|[H ->]]]];
    repeat match goal with
      | |- context [?x <? ?y] => destruct (N.ltb_spec x y); try lia
      end; done.
Qed.

(** On a string of code points, [quote] is the standard
    percent-encoding. *)
Lemma quote_standard (s q : str) :
  code_points s = true →
  Urllib.quote s = Return q → q = Standard.percent_encoding s.
Proof.
  unfold Urllib.quote, Urllib.quote_from_bytes, Standard.percent_encoding.
  destruct (Urllib.encode s) as [bs|] eqn:He; [|done].
  intros Hv [= <-]. revert bs He.
  induction s as [|c s IH]; simpl; intros bs.
  - by intros [= <-].
  - apply andb_true_iff in Hv as [Hc%N.ltb_lt Hv].
    destruct (Urllib.utf8_char c) as [b|] eqn:Hu; [|done].
    destruct (Urllib.encode s) as [r|]; [|done].
    intros [= <-]. rewrite fmap_app, concat_app, (IH Hv r eq_refl).
    f_equal. rewrite <- (utf8_char_standard c b Hc Hu).
    pose proof (utf8_char_bytes c b Hu) as Hbytes.
    clear -Hbytes. induction Hbytes as [|x l Hx _ IHl]; [done|].
    rewrite fmap_cons. simpl. by rewrite IHl, quote_byte_standard.
Qed.

End StandardEncoding.

(** ** The paths through [search_web] *)

Section Paths.

Lemma py_str_raises (v : pyval) (e : exception) :
  py_str v = Raise e → e = digits_exceeded.
Proof.
  destruct v as [|s|n]; simpl; try done.
  destruct (PyStr.int_converts n); [done|]. by intros [= <-].
Qed.

Lemma get_query_raises (self : component) (e : exception) :
  get_query_from_input self = Raise e → e = digits_exceeded.
Proof.
  unfold get_query_from_input.
  destruct (query_input self) as [t|v].
  - destruct (py_str t) eqn:H; [done|]. intros [= <-].
    by apply py_str_raises in H.
  - destruct (py_str _) eqn:H; [done|]. intros [= <-].
    by apply py_str_raises in H.
Qed.

Context (self : component) (net : Requests.network)
        (log : list Requests.call).

Ltac step := cbv beta iota delta [sent locals_query].

(** The input is not converted to a string: the [ValueError] leaves
    [search_web], nothing sent. *)
Lemma search_web_unread (e : exception) :
  get_query_from_input self = Raise e →
  search_web self net log = (Raise e, log).
Proof.
  intros Hq. run_search_web. rewrite Hq. step.
  by rewrite (get_query_raises _ _ Hq).
Qed.

(** Blank query: the validation record, nothing sent. *)
Lemma search_web_blank :
  get_query_from_input self = Return [] →
  search_web self net log =
  (Return (mk_Data (py "Search query is required")
             {[ "status" := VStr (py "error");
                "error" := VStr (py "Search query is required") ]}),
   log).
Proof.
  intros Hq. run_search_web. by rewrite Hq.
Qed.

(** The query cannot be encoded: the codec's exception leaves
    [search_web], nothing sent. *)
Lemma search_web_unbuilt (query : str) (e : exception) :
  get_query_from_input self = Return query → query ≠ [] →
  _build_search_url (engine self) query = Raise e →
  search_web self net log = (Raise e, log).
Proof.
  intros Hq Hne Hb. run_search_web. rewrite Hq. step.
  rewrite bool_decide_eq_false_2 by done. rewrite Hb.
  by destruct (build_raises _ _ _ Hb) as [-> _].
Qed.

(** The token is not converted to a string: the [ValueError] leaves
    [search_web], nothing sent. *)
Lemma search_web_unsigned (query search_url : str) (e : exception) :
  get_query_from_input self = Return query → query ≠ [] →
  _build_search_url (engine self) query = Return search_url →
  py_str (api_token self) = Raise e →
  search_web self net log = (Raise e, log).
Proof.
  intros Hq Hne Hb Ht. run_search_web. rewrite Hq. step.
  rewrite bool_decide_eq_false_2 by done. rewrite Hb, Ht.
  by rewrite (py_str_raises _ _ Ht).
Qed.

(** The request is answered. *)
Lemma search_web_answered (query search_url token : str)
    (r : Requests.response) :
  get_query_from_input self = Return query → query ≠ [] →
  _build_search_url (engine self) query = Return search_url →
  py_str (api_token self) = Return token →
  net (the_post token search_url) = Return r →
  search_web self net log =
  (Return
     (if (Requests.status_code r =? 200)%Z then
        mk_Data (Requests.text r)
          {[ "query" := VStr query;
             "engine" := engine self;
             "search_url" := VStr search_url;
             "status" := VStr (py "success");
             "results_length" :=
               VInt (Z.of_nat (length (Requests.text r))) ]}
      else
        let error_msg :=
          py "Error searching: HTTP "
          ++ PyStr.of_int (Requests.status_code r)
          ++ py " - " ++ Requests.text r in
        mk_Data error_msg
          {[ "query" := VStr query;
             "engine" := engine self;
             "status" := VStr (py "error");
             "error" := VStr error_msg ]}),
   log ++ [the_post token search_url]).
Proof.
  intros Hq Hne Hb Ht Hn. run_search_web. rewrite Hq. step.
  rewrite bool_decide_eq_false_2 by done. rewrite Hb, Ht.
  unfold the_post in Hn. rewrite Hn.
  by destruct (Requests.status_code r =? 200)%Z.
Qed.

(** The request raises. *)
Lemma search_web_raised (query search_url token : str) (e : exception) :
  get_query_from_input self = Return query → query ≠ [] →
  _build_search_url (engine self) query = Return search_url →
  py_str (api_token self) = Return token →
  net (the_post token search_url) = Raise e →
  search_web self net log =
  (if is_RequestException (exc_type e) then
     let error_msg :=
       py "Exception occurred while searching: " ++ exc_msg e in
     Return (mk_Data error_msg
               {[ "query" := VStr query;
                  "engine" := engine self;
                  "status" := VStr (py "error");
                  "error" := VStr error_msg ]})
   else Raise e,
   log ++ [the_post token search_url]).
Proof.
  intros Hq Hne Hb Ht Hn. run_search_web. rewrite Hq. step.
  rewrite bool_decide_eq_false_2 by done. rewrite Hb, Ht.
  unfold the_post in Hn. rewrite Hn.
  by destruct (is_RequestException (exc_type e)).
Qed.

(** The ways an invocation ends. *)
Lemma search_web_cases :
  (get_query_from_input self = Raise digits_exceeded
   ∧ search_web self net log = (Raise digits_exceeded, log))
  ∨ (get_query_from_input self = Return []
     ∧ search_web self net log = (Return validation_record, log))
  ∨ ∃ query,
      get_query_from_input self = Return query ∧ query ≠ []
      ∧ ((encodable query = false
          ∧ search_web self net log
            = (Raise Urllib.surrogates_not_allowed, log))
         ∨ ∃ search_url,
             encodable query = true
             ∧ _build_search_url (engine self) query = Return search_url
             ∧ ((py_str (api_token self) = Raise digits_exceeded
                 ∧ search_web self net log = (Raise digits_exceeded, log))
                ∨ ∃ token,
                    py_str (api_token self) = Return token
                    ∧ snd (search_web self net log)
                      = log ++ [the_post token search_url])).
Proof.
  destruct (get_query_from_input self) as [q|e] eqn:Hq.
  2:{ left. pose proof (get_query_raises _ _ Hq) as ->.
      split; [done|]. by apply search_web_unread. }
  right. destruct (decide (q = [])) as [->|Hne].
  { left. split; [done|]. by apply search_web_blank. }
  right. exists q. repeat (split; [done|]).
  destruct (encodable q) eqn:Henc.
  2:{ left. split; [done|].
      apply (search_web_unbuilt q); [done..|]. by apply build_unencodable. }
  right. destruct (build_encodable (engine self) _ Henc) as [u Hb].
  exists u. repeat (split; [done|]).
  destruct (py_str (api_token self)) as [t|e] eqn:Ht.
  2:{ left. pose proof (py_str_raises _ _ Ht) as ->. split; [done|].
      by apply (search_web_unsigned q u). }
  right. exists t. split; [done|].
  destruct (net (the_post t u)) as [r|e] eqn:Hn.
  - by rewrite (search_web_answered q u t r).
  - by rewrite (search_web_raised q u t e).
Qed.

End Paths.

(** ** The properties of [search_web] *)

Section Claims.

Lemma log_not_grown (log : list Requests.call) (req : Requests.call) :
  log ≠ log ++ [req].
Proof.
  intros H. apply (f_equal length) in H. rewrite length_app in H.
  simpl in H. lia.
Qed.

(** Whatever was sent is the call built from the URL of the query and the
    formatted token. *)
Lemma search_web_sent_inv (self : component) (net : Requests.network)
    (log : list Requests.call) (req : Requests.call) :
  snd (search_web self net log) = log ++ [req] →
  ∃ query search_url token,
    get_query_from_input self = Return query ∧ query ≠ [] ∧
    _build_search_url (engine self) query = Return search_url ∧
    py_str (api_token self) = Return token ∧
    req = the_post token search_url.
Proof.
  intros Hs.
  destruct (search_web_cases self net log)
    as [[_ H]|[[_ H]|(q & Hq & Hne &
         [[_ H]|(u & _ & Hb & [[_ H]|(t & Ht & H)])])]];
    rewrite H in Hs; try by apply log_not_grown in Hs.
  exists q, u, t. repeat (split; [done|]).
  apply app_inv_head in Hs. by injection Hs as <-.
Qed.

End Claims.

(** C1: for a query that is not blank after trimming, when the POST is
    answered with status code 200 and body [B], [search_web] returns the
    success record: [text] is [B], and [data] holds the query, the engine,
    the built search URL, status ["success"] and [results_length = len(B)]. *)
Theorem C1_success_record (self : component) (net : Requests.network)
    (log : list Requests.call) (req : Requests.call) (B : str) :
  snd (search_web self net log) = log ++ [req] →
  net req = Return (Requests.Response 200 B) →
  ∃ query search_url,
    get_query_from_input self = Return query ∧ query ≠ [] ∧
    _build_search_url (engine self) query = Return search_url ∧
    fst (search_web self net log) =
      Return (mk_Data B
                {[ "query" := VStr query;
                   "engine" := engine self;
                   "search_url" := VStr search_url;
                   "status" := VStr (py "success");
                   "results_length" := VInt (Z.of_nat (length B)) ]}).
Proof.
  intros Hs Hn.
  destruct (search_web_sent_inv _ _ _ _ Hs) as (q & u & t & Hq & Hne & Hb & Ht & ->).
  exists q, u. repeat (split; [done|]).
  by rewrite (search_web_answered self net log q u t _ Hq Hne Hb Ht Hn).
Qed.

(** C1 on the body ["X"]: [results_length] is 1. *)
Lemma C1_witness :
  fst (search_web (demo (py "rocq") "google")
         (answers (Return (Requests.Response 200 (py "X")))) []) =
  Return (mk_Data (py "X")
            {[ "query" := VStr (py "rocq");
               "engine" := VStr (py "google");
               "search_url" := VStr (py "https://www.google.com/search?q=rocq");
               "status" := VStr (py "success");
               "results_length" := VInt 1 ]}).
Proof.
  destruct (C1_success_record (demo (py "rocq") "google")
              (answers (Return (Requests.Response 200 (py "X")))) []
              (the_post (py "TOKEN") (py "https://www.google.com/search?q=rocq"))
              (py "X")) as (q & u & Hq & _ & Hu & ->);
    [reflexivity | reflexivity |].
  vm_compute in Hq. injection Hq as <-.
  vm_compute in Hu. injection Hu as <-. reflexivity.
Defined.

(** C2, as the code has it: the boundary is the single status code 200, not
    the 2xx range.  A POST answered with 200 gives status ["success"]; a
    POST answered with any other status code gives status ["error"], with
    the text and the error message
    ["Error searching: HTTP <status code> - <body>"], which include the
    status code and the body. *)
Theorem C2_status_200_boundary (self : component) (net : Requests.network)
    (log : list Requests.call) (req : Requests.call)
    (r : Requests.response) :
  snd (search_web self net log) = log ++ [req] →
  net req = Return r →
  ∃ d, fst (search_web self net log) = Return d ∧
    (Requests.status_code r = 200%Z →
       data d !! "status" = Some (VStr (py "success"))) ∧
    (Requests.status_code r ≠ 200%Z →
       data d !! "status" = Some (VStr (py "error")) ∧
       text d = py "Error searching: HTTP "
                ++ PyStr.of_int (Requests.status_code r)
                ++ py " - " ++ Requests.text r ∧
       data d !! "error" = Some (VStr (text d)) ∧
       PyStr.contains (text d) (PyStr.of_int (Requests.status_code r)) ∧
       PyStr.contains (text d) (Requests.text r)).
Proof.
  intros Hs Hn.
  destruct (search_web_sent_inv _ _ _ _ Hs)
    as (q & u & t & Hq & Hne & Hb & Ht & ->).
  rewrite (search_web_answered self net log q u t r Hq Hne Hb Ht Hn).
  cbn [fst].
  destruct (Z.eqb_spec (Requests.status_code r) 200) as [Hc|Hc];
    eexists; (split; [reflexivity|]); split; intros Hc'; try done.
  cbn [text data]. repeat split; try done.
  - apply contains_app.
  - rewrite !app_assoc. apply contains_app_r.
Qed.

(** C2 on a simulated 503 answer: status ["error"], and ["503"] in the
    text. *)
Lemma C2_witness :
  ∃ d, fst (search_web (demo (py "rocq") "google")
              (answers (Return (Requests.Response 503 (py "busy")))) [])
       = Return d ∧
    data d !! "status" = Some (VStr (py "error")) ∧
    PyStr.contains (text d) (py "503").
Proof.
  destruct (C2_status_200_boundary (demo (py "rocq") "google")
              (answers (Return (Requests.Response 503 (py "busy")))) []
              (the_post (py "TOKEN")
                 (py "https://www.google.com/search?q=rocq"))
              (Requests.Response 503 (py "busy")))
    as (d & Hd & _ & Herr); [reflexivity | reflexivity |].
  destruct Herr as (Hst & _ & _ & Hcode & _); [by vm_compute|].
  exists d. repeat split; assumption.
Defined.

(** C2 as stated fails: 201 is in the 2xx range and the record is an error
    record. *)
Lemma C2_counterexample :
  ∃ d, fst (search_web (demo (py "rocq") "google")
              (answers (Return (Requests.Response 201 (py "Created")))) [])
       = Return d ∧
    data d !! "status" = Some (VStr (py "error")) ∧
    text d = py "Error searching: HTTP 201 - Created".
Proof. eexists. split; [reflexivity|]. split; reflexivity. Qed.

(** C3, as the code has it: [search_web] catches [requests.RequestException]
    and nothing else.  When the query input converts to a string, the
    trimmed query has no lone surrogate (so that [urllib.parse.quote]
    accepts it), the token converts to a string unless the query is empty
    ([str] raises [ValueError] on an [int] of more than 4300 digits), and
    the POST raises nothing but [RequestException]s, [search_web] returns a
    record, whose status is ["success"] or ["error"]; the status is
    ["success"] only when a POST was answered with status code 200. *)
Theorem C3_returns_a_record (self : component) (net : Requests.network)
    (log : list Requests.call) (query : str) :
  get_query_from_input self = Return query →
  encodable query = true →
  (query = [] ∨ ∃ token, py_str (api_token self) = Return token) →
  (∀ c e, net c = Raise e → is_RequestException (exc_type e) = true) →
  ∃ d, fst (search_web self net log) = Return d ∧
    (data d !! "status" = Some (VStr (py "error"))
     ∨ (data d !! "status" = Some (VStr (py "success"))
        ∧ ∃ req body,
            snd (search_web self net log) = log ++ [req]
            ∧ net req = Return (Requests.Response 200 body))).
Proof.
  intros Hq Henc Htok Hnet.
  destruct (decide (query = [])) as [->|Hne].
  { rewrite (search_web_blank self net log Hq). eexists. split; [done|].
    by left. }
  destruct Htok as [?|[t Ht]]; [done|].
  destruct (build_encodable (engine self) _ Henc) as [u Hb].
  destruct (net (the_post t u)) as [r|e] eqn:Hn.
  - rewrite (search_web_answered self net log query u t r Hq Hne Hb Ht Hn).
    cbn [fst snd].
    destruct (Z.eqb_spec (Requests.status_code r) 200) as [Hc|Hc];
      eexists; (split; [reflexivity|]).
    + right. split; [done|]. exists (the_post t u), (Requests.text r).
      split; [done|]. rewrite Hn. destruct r as [code body].
      simpl in Hc. by rewrite Hc.
    + by left.
  - rewrite (search_web_raised self net log query u t e Hq Hne Hb Ht Hn).
    rewrite (Hnet _ _ Hn). eexists. split; [done|]. by left.
Qed.

(** C3 on a simulated connection failure: an error record, no exception. *)
Lemma C3_witness :
  ∃ d, fst (search_web (demo (py "rocq") "google")
              (answers (Raise (Exc ConnectionError (py "refused")))) [])
       = Return d ∧
    data d !! "status" = Some (VStr (py "error")).
Proof.
  destruct (C3_returns_a_record (demo (py "rocq") "google")
              (answers (Raise (Exc ConnectionError (py "refused")))) []
              (py "rocq"))
    as (d & Hd & Hst).
  - reflexivity.
  - reflexivity.
  - right. exists (py "TOKEN"). reflexivity.
  - intros c e [= <-]. reflexivity.
  - exists d. split; [exact Hd|].
    destruct Hst as [Hst|(_ & req & body & _ & Habs)];
      [exact Hst | discriminate Habs].
Defined.

(** C3 as stated fails: a query holding a lone surrogate makes
    [urllib.parse.quote] raise [UnicodeEncodeError], which is not a
    [RequestException] and leaves [search_web].  (An [int] of more than
    4300 digits as query input or token does the same with [ValueError]:
    [query_of_huge_int], [run_huge_token].) *)
Lemma C3_counterexample :
  search_web (demo [0xD800] "google")
    (answers (Return (Requests.Response 200 (py "X")))) []
  = (Raise (Exc UnicodeEncodeError (py "surrogates not allowed")), []).
Proof. reflexivity. Qed.

(** Blank input values give the empty query. *)
Lemma get_query_blank (tok eng : pyval) (s : str) :
  forallb PyStr.isspace s = true →
  get_query_from_input (Component tok (Plain (VStr s)) eng) = Return []
  ∧ get_query_from_input (Component tok (Message (VStr s)) eng) = Return [].
Proof.
  intros Hs. unfold get_query_from_input. cbn [query_input]. split.
  - destruct (truthy (VStr s)); cbn [py_str fmap result_fmap]; [|done].
    by rewrite strip_blank.
  - cbn [py_str fmap result_fmap]. by rewrite strip_blank.
Qed.

(** C4: when the query is empty after extraction and trimming, [search_web]
    returns the validation error record at once and sends no request: the
    requests sent are those sent before the call, whatever the network. *)
Theorem C4_blank_query_sends_nothing (self : component)
    (net : Requests.network) (log : list Requests.call) :
  get_query_from_input self = Return [] →
  search_web self net log =
  (Return (mk_Data (py "Search query is required")
             {[ "status" := VStr (py "error");
                "error" := VStr (py "Search query is required") ]}),
   log).
Proof. apply search_web_blank. Qed.

(** C4 on a query of blanks (space, tab, no-break space). *)
Lemma C4_witness :
  search_web (demo [0x20; 0x09; 0xA0] "bing")
    (answers (Return (Requests.Response 200 (py "X")))) []
  = (Return (mk_Data (py "Search query is required")
               {[ "status" := VStr (py "error");
                  "error" := VStr (py "Search query is required") ]}),
     []).
Proof.
  apply (C4_blank_query_sends_nothing (demo [0x20; 0x09; 0xA0] "bing")).
  reflexivity.
Defined.

(** C5, as the code has it: for a query without lone surrogates the builder
    returns a URL, made of the yandex.com template for the selector
    ["yandex"], of the www.bing.com template for ["bing"], and of the
    www.google.com template for every other selector value, followed by the
    percent-encoded query; for a query with a lone surrogate the builder
    raises [UnicodeEncodeError], whatever the selector. *)
Theorem C5_engine_templates (eng : pyval) (query : str) :
  (encodable query = true →
   ∃ q, Urllib.quote query = Return q ∧
     (eng = VStr (py "yandex") →
      _build_search_url eng query
      = Return (py "https://yandex.com/search/?text=" ++ q)) ∧
     (eng = VStr (py "bing") →
      _build_search_url eng query
      = Return (py "https://www.bing.com/search?q=" ++ q)) ∧
     (eng ≠ VStr (py "yandex") → eng ≠ VStr (py "bing") →
      _build_search_url eng query
      = Return (py "https://www.google.com/search?q=" ++ q)))
  ∧ (encodable query = false →
     _build_search_url eng query
     = Raise (Exc UnicodeEncodeError (py "surrogates not allowed"))).
Proof.
  split.
  - intros Henc. destruct (build_encodable eng query Henc) as [url Hb].
    destruct (build_inv _ _ _ Hb) as (q & Hq & Hcases).
    exists q. split; [done|]. rewrite Hb.
    destruct Hcases as [(He & ->)|[(Hy & He & ->)|(Hy & Hbi & ->)]];
      repeat split; intros; try done; subst; done.
  - apply build_unencodable.
Qed.

(** C5 on the three declared selectors, on an unset one and on an invalid
    one. *)
Lemma C5_witness :
  _build_search_url (VStr (py "yandex")) (py "a b")
  = Return (py "https://yandex.com/search/?text=a%20b")
  ∧ _build_search_url (VStr (py "bing")) (py "a b")
    = Return (py "https://www.bing.com/search?q=a%20b")
  ∧ _build_search_url (VStr (py "google")) (py "a b")
    = Return (py "https://www.google.com/search?q=a%20b")
  ∧ _build_search_url VNone (py "a b")
    = Return (py "https://www.google.com/search?q=a%20b")
  ∧ _build_search_url (VStr (py "Bing")) (py "a b")
    = Return (py "https://www.google.com/search?q=a%20b").
Proof.
  pose proof (λ eng, proj1 (C5_engine_templates eng (py "a b")) eq_refl)
    as H.
  split; [|split; [|split; [|split]]].
  - destruct (H (VStr (py "yandex"))) as (q & Hq & Hy & _).
    rewrite (Hy eq_refl). vm_compute in Hq. by injection Hq as <-.
  - destruct (H (VStr (py "bing"))) as (q & Hq & _ & Hb & _).
    rewrite (Hb eq_refl). vm_compute in Hq. by injection Hq as <-.
  - destruct (H (VStr (py "google"))) as (q & Hq & _ & _ & Hg).
    rewrite Hg by (intros Hne; vm_compute in Hne; discriminate Hne). vm_compute in Hq. by injection Hq as <-.
  - destruct (H VNone) as (q & Hq & _ & _ & Hg).
    rewrite Hg by done. vm_compute in Hq. by injection Hq as <-.
  - destruct (H (VStr (py "Bing"))) as (q & Hq & _ & _ & Hg).
    rewrite Hg by (intros Hne; vm_compute in Hne; discriminate Hne). vm_compute in Hq. by injection Hq as <-.
Defined.

(** C5 as stated fails: the builder raises on a query that holds a lone
    surrogate. *)
Lemma C5_counterexample :
  _build_search_url (VStr (py "google")) [0xD800]
  = Raise (Exc UnicodeEncodeError (py "surrogates not allowed")).
Proof. reflexivity. Qed.

(** C6: for every engine and every query, the URL the builder returns holds
    the query percent-encoded per the standard: it is a template followed by
    the standard percent-encoding of the UTF-8 octets of the query (every
    octet but an unreserved character or a slash written [%XX]).  So it
    holds no literal space, and a space of the query stands in it as [%20],
    between the encodings of what is before and after the space.  The
    builder does return a URL for every query that the UTF-8 codec
    accepts. *)
Theorem C6_query_percent_encoded (eng : pyval) (query : str) :
  (encodable query = true →
   ∃ url, _build_search_url eng query = Return url)
  ∧ (∀ url, _build_search_url eng query = Return url →
       (0x20 ∉ url)
       ∧ (∀ a b, query = a ++ py " " ++ b →
            ∃ template qa qb,
              Urllib.quote a = Return qa ∧ Urllib.quote b = Return qb
              ∧ url = template ++ qa ++ py "%20" ++ qb)
       ∧ (code_points query = true →
          ∃ template,
            template ∈ [py "https://yandex.com/search/?text=";
                        py "https://www.bing.com/search?q=";
                        py "https://www.google.com/search?q="]
            ∧ url = template ++ Standard.percent_encoding query)).
Proof.
  split; [apply build_encodable|].
  intros url Hb. split; [by eapply build_no_space|]. split.
  - intros a b ->.
    destruct (build_inv _ _ _ Hb) as (q & Hq & Hcases).
    unfold Urllib.quote in Hq.
    destruct (Urllib.encode (a ++ py " " ++ b)) as [bs|] eqn:He; [|done].
    injection Hq as <-.
    destruct (encode_app_inv _ _ _ He) as (ra & r' & Ha & He' & ->).
    destruct (encode_app_inv _ _ _ He') as (rs & rb & Hsp & Hrb & ->).
    vm_compute in Hsp. injection Hsp as <-.
    assert (∃ template,
      url = template
            ++ Urllib.quote_from_bytes ra ++ py "%20"
            ++ Urllib.quote_from_bytes rb) as [t ->].
    { rewrite !quote_from_bytes_app in Hcases.
      change (Urllib.quote_from_bytes [32]) with (py "%20") in Hcases.
      destruct Hcases as [(_ & ->)|[(_ & _ & ->)|(_ & _ & ->)]]; eauto. }
    exists t, (Urllib.quote_from_bytes ra), (Urllib.quote_from_bytes rb).
    unfold Urllib.quote. by rewrite Ha, Hrb.
  - intros Hv.
    destruct (build_template _ _ _ Hb) as (t & q & -> & Ht & Hq & _).
    exists t. split; [done|]. by rewrite (quote_standard query q Hv Hq).
Qed.

(** C6 on the query ["é b&"] (U+00E9, a space, ["b&"]). *)
Lemma C6_witness :
  ∃ url,
    _build_search_url (VStr (py "bing")) ([0xE9] ++ py " " ++ py "b&")
    = Return url
    ∧ (0x20 ∉ url)
    ∧ (∃ template, url = template ++ py "%C3%A9" ++ py "%20" ++ py "b%26")
    ∧ ∃ template, url = template ++ py "%C3%A9%20b%26".
Proof.
  destruct (C6_query_percent_encoded (VStr (py "bing"))
              ([0xE9] ++ py " " ++ py "b&")) as [Htotal Hurl].
  destruct (Htotal eq_refl) as [url Hb].
  destruct (Hurl url Hb) as (Hsp & Hparts & Hstd).
  destruct (Hparts [0xE9] (py "b&") eq_refl)
    as (t & qa & qb & Hqa & Hqb & Hu).
  vm_compute in Hqa, Hqb. injection Hqa as <-. injection Hqb as <-.
  destruct (Hstd eq_refl) as (t' & _ & Hu').
  exists url. split; [exact Hb|]. split; [exact Hsp|].
  split; [exists t; exact Hu|]. exists t'. exact Hu'.
Defined.

(** C7, as the code has it: when the query input and the token convert to
    strings ([str] raises [ValueError] on an [int] of more than 4300
    digits), for a trimmed query that is not empty and holds no lone
    surrogate, the invocation sends exactly one request, a POST to
    [https://api.brightdata.com/request] with the JSON body
    [{url: <built search URL>, zone: "mcp_unlocker", format: "raw",
    data_format: "markdown"}], the headers
    [{authorization: "Bearer <token>", Content-Type: "application/json"}]
    and a timeout of 120 seconds. *)
Theorem C7_one_post (self : component) (net : Requests.network)
    (log : list Requests.call) (query token : str) :
  get_query_from_input self = Return query → query ≠ [] →
  encodable query = true →
  py_str (api_token self) = Return token →
  ∃ search_url,
    _build_search_url (engine self) query = Return search_url ∧
    snd (search_web self net log) =
    log ++ [Requests.Post (py "https://api.brightdata.com/request")
              {[ "url" := VStr search_url;
                 "zone" := VStr (py "mcp_unlocker");
                 "format" := VStr (py "raw");
                 "data_format" := VStr (py "markdown") ]}
              {[ "authorization" := py "Bearer " ++ token;
                 "Content-Type" := py "application/json" ]}
              120].
Proof.
  intros Hq Hne Henc Ht.
  destruct (build_encodable (engine self) _ Henc) as [u Hb].
  exists u. split; [done|].
  destruct (net (the_post token u)) as [r|e] eqn:Hn.
  - by rewrite (search_web_answered self net log query u token r
                  Hq Hne Hb Ht Hn).
  - by rewrite (search_web_raised self net log query u token e
                  Hq Hne Hb Ht Hn).
Qed.

(** C7 on the query ["rocq"] with the token ["TOKEN"]. *)
Lemma C7_witness :
  snd (search_web (demo (py "rocq") "google")
         (answers (Return (Requests.Response 200 (py "X")))) []) =
  [Requests.Post (py "https://api.brightdata.com/request")
     {[ "url" := VStr (py "https://www.google.com/search?q=rocq");
        "zone" := VStr (py "mcp_unlocker");
        "format" := VStr (py "raw");
        "data_format" := VStr (py "markdown") ]}
     {[ "authorization" := py "Bearer TOKEN";
        "Content-Type" := py "application/json" ]}
     120].
Proof.
  destruct (C7_one_post (demo (py "rocq") "google")
              (answers (Return (Requests.Response 200 (py "X")))) []
              (py "rocq") (py "TOKEN"))
    as (u & Hu & ->); [reflexivity | by vm_compute | reflexivity..|].
  vm_compute in Hu. injection Hu as <-. reflexivity.
Defined.

(** C7 as stated fails: a query that is not empty and holds a lone surrogate
    sends no request. *)
Lemma C7_counterexample :
  get_query_from_input (demo [0xD800] "google") = Return [0xD800]
  ∧ snd (search_web (demo [0xD800] "google")
           (answers (Return (Requests.Response 200 (py "X")))) []) = [].
Proof. split; reflexivity. Qed.

(** Every record returned for a query that is not empty has a status, the
    query and the engine in its data; a success record also has the search
    URL and the length of the response, an error record the error message,
    equal to its text. *)
Lemma record_keys_after_query (self : component) (net : Requests.network)
    (log : list Requests.call) (query : str) (d : Data) :
  get_query_from_input self = Return query → query ≠ [] →
  fst (search_web self net log) = Return d →
  data d !! "query" = Some (VStr query)
  ∧ data d !! "engine" = Some (engine self)
  ∧ ((data d !! "status" = Some (VStr (py "success"))
      ∧ (∃ search_url,
           _build_search_url (engine self) query = Return search_url
           ∧ data d !! "search_url" = Some (VStr search_url))
      ∧ data d !! "results_length"
        = Some (VInt (Z.of_nat (length (text d)))))
     ∨ (data d !! "status" = Some (VStr (py "error"))
        ∧ data d !! "error" = Some (VStr (text d)))).
Proof.
  intros Hq Hne.
  destruct (_build_search_url (engine self) query) as [u|e] eqn:Hb;
    [|by rewrite (search_web_unbuilt self net log query e Hq Hne Hb)].
  destruct (py_str (api_token self)) as [t|e] eqn:Ht;
    [|by rewrite (search_web_unsigned self net log query u e Hq Hne Hb Ht)].
  destruct (net (the_post t u)) as [r|e] eqn:Hn.
  - rewrite (search_web_answered self net log query u t r Hq Hne Hb Ht Hn).
    cbn [fst].
    destruct (Requests.status_code r =? 200)%Z; intros [= <-];
      cbn [data text]; (split; [done|]); (split; [done|]); [left|right].
    + repeat split; try done. by exists u.
    + by split.
  - rewrite (search_web_raised self net log query u t e Hq Hne Hb Ht Hn).
    cbn [fst]. destruct (is_RequestException (exc_type e)); [|done].
    intros [= <-]. cbn [data text]. repeat (split; [done|]). by right.
Qed.

(** C8: the code does not keep the shape on the validation path.  For the
    empty query input the record of [search_web] has a status and an error
    message in its data and neither the query nor the engine, while the
    records of the two other error paths (an answer that is not 200, a
    [RequestException]) for the same component with a query have both. *)
Theorem C8_validation_record_lacks_query :
  (∃ d, fst (search_web (demo (py "") "google")
               (answers (Return (Requests.Response 200 (py "X")))) [])
        = Return d
     ∧ data d !! "status" = Some (VStr (py "error"))
     ∧ data d !! "error" = Some (VStr (py "Search query is required"))
     ∧ data d !! "query" = None
     ∧ data d !! "engine" = None)
  ∧ (∃ d, fst (search_web (demo (py "rocq") "google")
                 (answers (Return (Requests.Response 503 (py "busy")))) [])
          = Return d
       ∧ data d !! "status" = Some (VStr (py "error"))
       ∧ data d !! "query" = Some (VStr (py "rocq"))
       ∧ data d !! "engine" = Some (VStr (py "google")))
  ∧ (∃ d, fst (search_web (demo (py "rocq") "google")
                 (answers (Raise (Exc Timeout (py "timed out")))) [])
          = Return d
       ∧ data d !! "status" = Some (VStr (py "error"))
       ∧ data d !! "query" = Some (VStr (py "rocq"))
       ∧ data d !! "engine" = Some (VStr (py "google"))).
Proof.
  split; [|split]; (eexists; split; [reflexivity|]); by repeat split.
Qed.






(** * Further properties of the component *)

(** ** The extracted query *)

(** X1: the query [get_query_from_input] returns neither starts nor ends
    with a whitespace code point. *)
Theorem X1_query_is_trimmed (self : component) (query : str) (c : N) :
  get_query_from_input self = Return query →
  head query = Some c ∨ last query = Some c →
  PyStr.isspace c = false.
Proof.
  intros (raw & _ & ->)%get_query_strip [H|H].
  - destruct (PyStr.strip raw) as [|c' r] eqn:Hs; [done|].
    injection H as ->. by eapply strip_head.
  - apply last_Some in H as [r Hr]. by eapply strip_last.
Qed.

Lemma X1_witness : PyStr.isspace 0x72 = false.
Proof.
  apply (X1_query_is_trimmed (demo (py "  rocq prover ") "google")
           (py "rocq prover")); [reflexivity|].
  left. reflexivity.
Defined.

(** X2: [get_query_from_input] removes whitespace at the two ends of the
    input text and nothing else: the text ([str(text)] of a message,
    [str(v or "")] of a plain value) is the query between two strings of
    whitespace. *)
Theorem X2_query_only_trims (self : component) (query : str) :
  get_query_from_input self = Return query →
  ∃ raw pre post,
    match query_input self with
    | Message t => py_str t
    | Plain v => if truthy v then py_str v else Return []
    end = Return raw
    ∧ raw = pre ++ query ++ post
    ∧ blank pre = true ∧ blank post = true.
Proof.
  intros (raw & Hraw & ->)%get_query_strip.
  destruct (strip_split raw) as (pre & post & H).
  by exists raw, pre, post.
Qed.

Lemma X2_witness :
  ∃ pre post,
    py "  rocq prover " = pre ++ py "rocq prover" ++ post
    ∧ blank pre = true ∧ blank post = true.
Proof.
  destruct (X2_query_only_trims (demo (py "  rocq prover ") "google")
              (py "rocq prover") eq_refl)
    as (raw & pre & post & Hraw & H).
  injection Hraw as <-. exists pre, post. exact H.
Defined.

(** X3: extraction is idempotent: the query extracted from an input, given
    back as a plain input, is extracted unchanged. *)
Theorem X3_query_extraction_idempotent (self : component) (tok eng : pyval)
    (query : str) :
  get_query_from_input self = Return query →
  get_query_from_input (Component tok (Plain (VStr query)) eng)
  = Return query.
Proof.
  intros (raw & _ & ->)%get_query_strip.
  rewrite (get_query_of_str _ (PyStr.strip raw)) by by left.
  by rewrite strip_strip.
Qed.

Lemma X3_witness :
  get_query_from_input
    (Component VNone (Plain (VStr (py "rocq prover"))) VNone)
  = Return (py "rocq prover").
Proof.
  apply (X3_query_extraction_idempotent (demo (py "  rocq prover ") "bing")).
  reflexivity.
Defined.

(** X4: for a string input, plain or in a message, [search_web] returns the
    validation record exactly when the string is blank (empty or whitespace
    only). *)
Theorem X4_validation_iff_blank (self : component) (s : str)
    (net : Requests.network) (log : list Requests.call) :
  query_input self = Plain (VStr s) ∨ query_input self = Message (VStr s) →
  fst (search_web self net log) = Return validation_record
  ↔ blank s = true.
Proof.
  intros Hq%get_query_of_str.
  rewrite <- strip_empty_blank.
  pose (has_query := λ x : result Data,
          match x with
          | Return d => bool_decide (is_Some (data d !! "query"))
          | Raise _ => true
          end).
  split.
  - intros Hv.
    destruct (decide (PyStr.strip s = [])) as [|Hne]; [done|].
    exfalso.
    destruct (_build_search_url (engine self) (PyStr.strip s))
      as [u|e] eqn:Hb;
      [|by rewrite (search_web_unbuilt self net log _ e Hq Hne Hb) in Hv].
    destruct (py_str (api_token self)) as [t|e] eqn:Ht;
      [|by rewrite (search_web_unsigned self net log _ u e Hq Hne Hb Ht)
          in Hv].
    destruct (net (the_post t u)) as [r|e] eqn:Hn.
    + rewrite (search_web_answered self net log _ u t r Hq Hne Hb Ht Hn)
        in Hv.
      cbn [fst] in Hv. apply (f_equal has_query) in Hv.
      by destruct (Requests.status_code r =? 200)%Z.
    + rewrite (search_web_raised self net log _ u t e Hq Hne Hb Ht Hn) in Hv.
      cbn [fst] in Hv. apply (f_equal has_query) in Hv.
      by destruct (is_RequestException (exc_type e)).
  - intros Hq'. rewrite Hq' in Hq.
    by rewrite (search_web_blank self net log Hq).
Qed.

Lemma X4_witness :
  fst (search_web (Component VNone (Message (VStr [0x20; 0x3000])) VNone)
         (answers (Raise (Exc Timeout (py "timed out")))) [])
  = Return validation_record.
Proof.
  apply (X4_validation_iff_blank _ [0x20; 0x3000]); [by right|reflexivity].
Defined.

(** ** The built URL *)

(** X5: the URL the builder returns is one of the three templates followed
    by the quoted query, and the quoted query holds only ASCII letters,
    digits, the characters [_.-~/] and the percent sign: no code point
    above U+007F, and none of the space, [&], [#], [?], [=], [+] of the
    query reaches the URL unescaped. *)
Theorem X5_url_characters (eng : pyval) (query url : str) :
  _build_search_url eng query = Return url →
  ∃ template q,
    url = template ++ q
    ∧ template ∈ [py "https://yandex.com/search/?text=";
                  py "https://www.bing.com/search?q=";
                  py "https://www.google.com/search?q="]
    ∧ Urllib.quote query = Return q
    ∧ ∀ c, c ∈ q →
        quoted_char c = true ∧ c < 0x80 ∧ c ∉ py " &#?=+".
Proof.
  intros (t & q & -> & Ht & Hq & _)%build_template.
  exists t, q. repeat (split; [done|]).
  assert (Forall (λ c, quoted_char c = true) q) as Hall.
  { unfold Urllib.quote in Hq.
    destruct (Urllib.encode query) as [bs|] eqn:He; [|done].
    injection Hq as <-. by eapply quote_from_bytes_chars, encode_bytes. }
  intros c Hc. rewrite Forall_forall in Hall. specialize (Hall c Hc).
  split; [done|]. split; [by apply quoted_char_ascii|].
  intros Hin. vm_compute in Hin.
  repeat (apply elem_of_cons in Hin as [->|Hin]; [by vm_compute in Hall|]).
  by apply not_elem_of_nil in Hin.
Qed.

Lemma X5_witness :
  _build_search_url (VStr (py "bing")) (py "a&b=c d")
  = Return (py "https://www.bing.com/search?q=a%26b%3Dc%20d")
  ∧ 0x26 ∉ py "a%26b%3Dc%20d".
Proof.
  split; [reflexivity|].
  destruct (X5_url_characters (VStr (py "bing")) (py "a&b=c d") _ eq_refl)
    as (t & q & Hu & _ & Hq & Hc).
  vm_compute in Hq. injection Hq as <-.
  intros Hin. destruct (Hc _ Hin) as (_ & _ & Hres).
  apply Hres. vm_compute. apply elem_of_cons. right.
  apply elem_of_cons. by left.
Defined.

(** X6: a query made of letters, digits and the characters [_.-~/] only is
    put in the URL as it is. *)
Theorem X6_safe_query_verbatim (eng : pyval) (query : str) :
  forallb Urllib.is_safe query = true →
  ∃ template,
    template ∈ [py "https://yandex.com/search/?text=";
                py "https://www.bing.com/search?q=";
                py "https://www.google.com/search?q="]
    ∧ _build_search_url eng query = Return (template ++ query).
Proof.
  intros Hq%quote_safe.
  destruct (_build_search_url eng query) as [url|e] eqn:Hb.
  - destruct (build_template _ _ _ Hb) as (t & q & -> & Ht & Hq' & _).
    exists t. split; [done|]. congruence.
  - unfold _build_search_url in Hb. rewrite Hq in Hb.
    by repeat destruct (py_eq _ _).
Qed.

Lemma X6_witness :
  ∃ template,
    template ∈ [py "https://yandex.com/search/?text=";
                py "https://www.bing.com/search?q=";
                py "https://www.google.com/search?q="]
    ∧ _build_search_url (VStr (py "yandex")) (py "rocq/stdpp-1.13")
      = Return (template ++ py "rocq/stdpp-1.13").
Proof.
  apply (X6_safe_query_verbatim (VStr (py "yandex")) (py "rocq/stdpp-1.13")).
  reflexivity.
Defined.

(** X7: the builder follows concatenation: the URL of [a ++ b] is the URL
    of [a] followed by the quoted [b]. *)
Theorem X7_builder_appends (eng : pyval) (a b ua qb : str) :
  _build_search_url eng a = Return ua →
  Urllib.quote b = Return qb →
  _build_search_url eng (a ++ b) = Return (ua ++ qb).
Proof.
  intros (t & qa & -> & _ & Hqa & Hall)%build_template Hqb.
  rewrite <- app_assoc. apply Hall. by apply quote_app.
Qed.

Lemma X7_witness :
  _build_search_url (VStr (py "google")) (py "rocq" ++ py " 9")
  = Return (py "https://www.google.com/search?q=rocq" ++ py "%209").
Proof.
  apply (X7_builder_appends (VStr (py "google")) (py "rocq") (py " 9"));
    reflexivity.
Defined.

(** X8: for one engine, two queries (strings of code points up to
    U+10FFFF) with the same URL are the same query. *)
Theorem X8_builder_injective (eng : pyval) (q1 q2 url : str) :
  code_points q1 = true → code_points q2 = true →
  _build_search_url eng q1 = Return url →
  _build_search_url eng q2 = Return url →
  q1 = q2.
Proof.
  intros Hv1 Hv2 (t & e1 & -> & _ & Hq1 & Hall)%build_template Hb2.
  unfold Urllib.quote in Hq1.
  destruct (Urllib.encode q1) as [bs1|] eqn:He1; [|done].
  injection Hq1 as <-.
  destruct (build_template _ _ _ Hb2) as (t' & e2 & _ & _ & Hq2 & _).
  rewrite (Hall _ _ Hq2) in Hb2. apply Return_inj, app_inv_head in Hb2.
  subst e2. unfold Urllib.quote in Hq2.
  destruct (Urllib.encode q2) as [bs2|] eqn:He2; [|done].
  injection Hq2 as Hq2%quote_from_bytes_inj; try by eapply encode_bytes.
  subst bs2. by eapply encode_inj.
Qed.

Lemma X8_witness :
  _build_search_url (VStr (py "bing")) (py "a b")
  ≠ _build_search_url (VStr (py "bing")) (py "a%20b").
Proof.
  intros H.
  assert (py "a b" = py "a%20b") as Habs; [|discriminate Habs].
  apply (X8_builder_injective (VStr (py "bing")) (py "a b") (py "a%20b")
           (py "https://www.bing.com/search?q=a%20b"));
    [reflexivity | reflexivity | reflexivity |].
  rewrite <- H. reflexivity.
Defined.

(** X9: the options the class declares for the engine give URLs that
    differ: two declared options with the same URL for a query are the
    same option.  The declared default is one of the options. *)
Theorem X9_declared_engines_differ (e1 e2 query url : str) :
  e1 ∈ engine_options → e2 ∈ engine_options →
  _build_search_url (VStr e1) query = Return url →
  _build_search_url (VStr e2) query = Return url →
  e1 = e2 ∧ engine_value ∈ engine_options.
Proof.
  intros H1 H2 Hb1 Hb2. split; [|by left].
  unfold _build_search_url in Hb1, Hb2.
  destruct (Urllib.quote query) as [q|]; [|done].
  unfold engine_options in H1, H2.
  repeat (apply elem_of_cons in H1 as [->|H1]);
    try (by apply not_elem_of_nil in H1);
    repeat (apply elem_of_cons in H2 as [->|H2]);
    try (by apply not_elem_of_nil in H2);
    try done;
    vm_compute in Hb1, Hb2; congruence.
Qed.

Lemma X9_witness :
  _build_search_url (VStr (py "bing")) (py "rocq")
  ≠ _build_search_url (VStr (py "yandex")) (py "rocq").
Proof.
  intros H.
  destruct (X9_declared_engines_differ (py "bing") (py "yandex") (py "rocq")
              (py "https://www.bing.com/search?q=rocq")) as [Habs _];
    [by repeat constructor.. | reflexivity | | discriminate Habs].
  rewrite <- H. reflexivity.
Defined.

(** ** Invocations and the requests they send *)

Section Invocations.

(** [search_web] reads its inputs through the extracted query, the engine
    and the token only. *)
Lemma search_web_inputs (self1 self2 : component) (net : Requests.network)
    (log : list Requests.call) :
  get_query_from_input self1 = get_query_from_input self2 →
  engine self1 = engine self2 →
  api_token self1 = api_token self2 →
  search_web self1 net log = search_web self2 net log.
Proof.
  intros Hq He Ht. run_search_web. by rewrite Hq, He, Ht.
Qed.

(** What an invocation sends does not depend on the network: nothing, or
    one request. *)
Lemma search_web_sends (self : component) (log : list Requests.call) :
  ∃ added,
    (added = [] ∨ ∃ req, added = [req])
    ∧ ∀ net, snd (search_web self net log) = log ++ added.
Proof.
  assert (∀ net r, search_web self net log = (r, log) →
                   (search_web self net log).2 = log ++ []) as Hnone.
  { intros net r ->. by rewrite app_nil_r. }
  destruct (get_query_from_input self) as [q|e] eqn:Hq.
  2:{ exists []. split; [by left|]. intros net.
      eapply Hnone, search_web_unread, Hq. }
  destruct (decide (q = [])) as [->|Hne].
  { exists []. split; [by left|]. intros net.
    eapply Hnone, search_web_blank, Hq. }
  destruct (_build_search_url (engine self) q) as [u|e] eqn:Hb.
  2:{ exists []. split; [by left|]. intros net.
      eapply Hnone. by apply (search_web_unbuilt _ _ _ q e). }
  destruct (py_str (api_token self)) as [t|e] eqn:Ht.
  2:{ exists []. split; [by left|]. intros net.
      eapply Hnone. by apply (search_web_unsigned _ _ _ q u e). }
  exists [the_post t u]. split; [right; by eexists|]. intros net.
  destruct (net (the_post t u)) as [r|e] eqn:Hn.
  - by rewrite (search_web_answered self net log q u t r).
  - by rewrite (search_web_raised self net log q u t e).
Qed.

(** A success record comes from an answered request. *)
Lemma success_inv (self : component) (net : Requests.network)
    (log : list Requests.call) (d : Data) :
  fst (search_web self net log) = Return d →
  data d !! "status" = Some (VStr (py "success")) →
  ∃ query search_url token body,
    get_query_from_input self = Return query
    ∧ _build_search_url (engine self) query = Return search_url
    ∧ net (the_post token search_url) = Return (Requests.Response 200 body)
    ∧ snd (search_web self net log) = log ++ [the_post token search_url]
    ∧ d = mk_Data body
            {[ "query" := VStr query;
               "engine" := engine self;
               "search_url" := VStr search_url;
               "status" := VStr (py "success");
               "results_length" := VInt (Z.of_nat (length body)) ]}.
Proof.
  intros Hd Hst.
  destruct (get_query_from_input self) as [q|e0] eqn:Hq;
    [|by rewrite (search_web_unread self net log e0 Hq) in Hd].
  destruct (decide (q = [])) as [->|Hne].
  { rewrite (search_web_blank self net log Hq) in Hd.
    apply Return_inj in Hd. subst d. by vm_compute in Hst. }
  destruct (_build_search_url (engine self) q) as [u|e0] eqn:Hb;
    [|by rewrite (search_web_unbuilt self net log q e0 Hq Hne Hb) in Hd].
  destruct (py_str (api_token self)) as [t|e0] eqn:Ht;
    [|by rewrite (search_web_unsigned self net log q u e0 Hq Hne Hb Ht)
        in Hd].
  destruct (net (the_post t u)) as [r|e1] eqn:Hn.
  - rewrite (search_web_answered self net log q u t r Hq Hne Hb Ht Hn)
      in Hd |- *.
    cbn [fst snd] in *.
    destruct (Z.eqb_spec (Requests.status_code r) 200) as [Hc|Hc];
      apply Return_inj in Hd; subst d; [|by vm_compute in Hst].
    exists q, u, t, (Requests.text r). repeat (split; [done|]).
    split; [|done]. rewrite Hn. destruct r as [code body].
    cbn in *. by rewrite Hc.
  - rewrite (search_web_raised self net log q u t e1 Hq Hne Hb Ht Hn) in Hd.
    cbn [fst] in Hd. destruct (is_RequestException (exc_type e1)); [|done].
    apply Return_inj in Hd. subst d. by vm_compute in Hst.
Qed.

Lemma lstrip_pad (pre s : str) :
  blank pre = true → PyStr.lstrip (pre ++ s) = PyStr.lstrip s.
Proof.
  induction pre as [|c pre IH]; [done|]. simpl.
  intros [-> Hpre]%andb_true_iff. auto.
Qed.

Lemma rstrip_pad (s post : str) :
  blank post = true → PyStr.rstrip (s ++ post) = PyStr.rstrip s.
Proof.
  intros Hp. unfold PyStr.rstrip. rewrite rev_app_distr.
  rewrite lstrip_pad; [done|]. by rewrite blank_rev.
Qed.

Lemma lstrip_app (s post : str) :
  blank s = false → PyStr.lstrip (s ++ post) = PyStr.lstrip s ++ post.
Proof.
  induction s as [|c s IH]; [done|]. simpl.
  destruct (PyStr.isspace c); [|done]. simpl. auto.
Qed.

(** Whitespace around a string does not change its trimmed form. *)
Lemma strip_pad (pre s post : str) :
  blank pre = true → blank post = true →
  PyStr.strip (pre ++ s ++ post) = PyStr.strip s.
Proof.
  intros Hpre Hpost. unfold PyStr.strip. rewrite lstrip_pad by done.
  destruct (blank s) eqn:Hs.
  - rewrite !lstrip_blank; [done..|]. by rewrite blank_app, Hs, Hpost.
  - rewrite lstrip_app by done. by apply rstrip_pad.
Qed.

End Invocations.

(** X10: an invocation appends at most one request to those already sent,
    and which one does not depend on what the network answers: there is no
    second attempt after an error answer or an exception. *)
Theorem X10_requests_ignore_answers (self : component)
    (net1 net2 : Requests.network) (log : list Requests.call) :
  snd (search_web self net1 log) = snd (search_web self net2 log)
  ∧ (snd (search_web self net1 log) = log
     ∨ ∃ req, snd (search_web self net1 log) = log ++ [req]).
Proof.
  destruct (search_web_sends self log) as (added & Hadded & Hs).
  rewrite !Hs. split; [done|].
  destruct Hadded as [->|[req ->]]; [left; apply app_nil_r|right; by exists req].
Qed.

(** X11: [search_web] raises in these cases only: the query input is not
    converted to a string ([ValueError], an [int] of more than 4300
    digits); or, for a query that is not empty, the query has a lone
    surrogate and the codec's [UnicodeEncodeError] leaves it, or the token
    is not converted to a string ([ValueError]), or the POST raises an
    exception that is not a [RequestException].  In each case the exception
    leaves [search_web] unchanged. *)
Theorem X11_raises_exactly (self : component) (net : Requests.network)
    (log : list Requests.call) (e : exception) :
  fst (search_web self net log) = Raise e
  ↔ get_query_from_input self = Raise e
    ∨ ∃ query,
        get_query_from_input self = Return query ∧ query ≠ []
        ∧ ((encodable query = false
            ∧ e = Exc UnicodeEncodeError (py "surrogates not allowed"))
           ∨ ∃ search_url,
               _build_search_url (engine self) query = Return search_url
               ∧ (py_str (api_token self) = Raise e
                  ∨ ∃ token,
                      py_str (api_token self) = Return token
                      ∧ net (the_post token search_url) = Raise e
                      ∧ is_RequestException (exc_type e) = false)).
Proof.
  split.
  - intros Hr.
    destruct (get_query_from_input self) as [q|e0] eqn:Hq.
    2:{ left. rewrite (search_web_unread self net log e0 Hq) in Hr.
        by injection Hr as <-. }
    right. exists q. split; [done|].
    destruct (decide (q = [])) as [->|Hne];
      [by rewrite (search_web_blank self net log Hq) in Hr|].
    split; [done|].
    destruct (_build_search_url (engine self) q) as [u|e0] eqn:Hb.
    2:{ left. rewrite (search_web_unbuilt self net log q e0 Hq Hne Hb) in Hr.
        injection Hr as <-. by destruct (build_raises _ _ _ Hb) as [-> ->]. }
    right. exists u. split; [done|].
    destruct (py_str (api_token self)) as [t|e0] eqn:Ht.
    2:{ left.
        rewrite (search_web_unsigned self net log q u e0 Hq Hne Hb Ht) in Hr.
        by injection Hr as <-. }
    right. exists t. split; [done|].
    destruct (net (the_post t u)) as [r|e1] eqn:Hn.
    + by rewrite (search_web_answered self net log q u t r Hq Hne Hb Ht Hn)
        in Hr.
    + rewrite (search_web_raised self net log q u t e1 Hq Hne Hb Ht Hn) in Hr.
      cbn [fst] in Hr.
      destruct (is_RequestException (exc_type e1)) eqn:Hre; [done|].
      by injection Hr as <-.
  - intros [Hq|(q & Hq & Hne & [[Henc ->]|(u & Hb & [Ht|(t & Ht & Hn & Hre)])])].
    + by rewrite (search_web_unread self net log e Hq).
    + rewrite (search_web_unbuilt self net log q
                 Urllib.surrogates_not_allowed Hq Hne); [done|].
      by apply build_unencodable.
    + by rewrite (search_web_unsigned self net log q u e Hq Hne Hb Ht).
    + rewrite (search_web_raised self net log q u t e Hq Hne Hb Ht Hn).
      by rewrite Hre.
Qed.

Lemma X11_witness :
  fst (search_web (demo (py "rocq") "google")
         (answers (Raise (Exc RuntimeError (py "boom")))) [])
  = Raise (Exc RuntimeError (py "boom")).
Proof.
  apply (X11_raises_exactly (demo (py "rocq") "google")).
  right. exists (py "rocq"). split; [reflexivity|]. split; [by vm_compute|].
  right. exists (py "https://www.google.com/search?q=rocq").
  split; [reflexivity|]. right. exists (py "TOKEN").
  split; [reflexivity|]. split; reflexivity.
Defined.

(** X12: a success record reports the request that was made: the invocation
    sent one request, the [search_url] of the record is the [url] of the
    request's JSON body, the request was answered with status code 200, and
    the text of the record is the body of that answer. *)
Theorem X12_success_reports_request (self : component)
    (net : Requests.network) (log : list Requests.call) (d : Data) :
  fst (search_web self net log) = Return d →
  data d !! "status" = Some (VStr (py "success")) →
  ∃ req,
    snd (search_web self net log) = log ++ [req]
    ∧ is_Some (data d !! "search_url")
    ∧ data d !! "search_url" = Requests.json req !! "url"
    ∧ net req = Return (Requests.Response 200 (text d)).
Proof.
  intros Hd Hst.
  destruct (success_inv self net log d Hd Hst)
    as (q & u & t & body & _ & _ & Hn & Hs & ->).
  exists (the_post t u). split; [done|]. split; [by eexists|]. by split.
Qed.

Lemma X12_witness :
  ∃ req,
    snd (search_web (demo (py "rocq") "bing")
           (answers (Return (Requests.Response 200 (py "X")))) []) = [req]
    ∧ Requests.json req !! "url"
      = Some (VStr (py "https://www.bing.com/search?q=rocq")).
Proof.
  destruct (X12_success_reports_request (demo (py "rocq") "bing")
              (answers (Return (Requests.Response 200 (py "X")))) []
              _ eq_refl eq_refl) as (req & Hs & _ & Hu & _).
  exists req. split; [exact Hs|]. rewrite <- Hu. reflexivity.
Defined.

(** X14: a token that converts to a string is not checked and reaches the
    [authorization] header only.  Two components that differ in such
    tokens send nothing, both, or one request each; the two requests have
    the same URL, JSON body and timeout, and the same headers but for
    [authorization], which is ["Bearer "] followed by [str(api_token)].
    With a token that does not convert (an [int] of more than 4300 digits)
    nothing is sent. *)
Theorem X14_token_in_header_only (tok1 tok2 : pyval) (qi : query_input_t)
    (eng : pyval) (net1 net2 : Requests.network)
    (log : list Requests.call) :
  (∀ e, py_str tok1 = Raise e →
        snd (search_web (Component tok1 qi eng) net1 log) = log)
  ∧ ∀ token1 token2,
      py_str tok1 = Return token1 → py_str tok2 = Return token2 →
      (snd (search_web (Component tok1 qi eng) net1 log) = log
       ∧ snd (search_web (Component tok2 qi eng) net2 log) = log)
      ∨ ∃ c1 c2,
          snd (search_web (Component tok1 qi eng) net1 log) = log ++ [c1]
          ∧ snd (search_web (Component tok2 qi eng) net2 log) = log ++ [c2]
          ∧ Requests.url c1 = Requests.url c2
          ∧ Requests.json c1 = Requests.json c2
          ∧ Requests.timeout c1 = Requests.timeout c2
          ∧ delete "authorization" (Requests.headers c1)
            = delete "authorization" (Requests.headers c2)
          ∧ Requests.headers c1 !! "authorization"
            = Some (py "Bearer " ++ token1)
          ∧ Requests.headers c2 !! "authorization"
            = Some (py "Bearer " ++ token2).
Proof.
  set (self1 := Component tok1 qi eng). set (self2 := Component tok2 qi eng).
  assert (get_query_from_input self2 = get_query_from_input self1) as Hqq
    by reflexivity.
  split.
  - intros e Ht.
    destruct (search_web_cases self1 net1 log)
      as [[_ H]|[[_ H]|(q & Hq & Hne &
           [[_ H]|(u & _ & Hb & [[_ H]|(t & Ht' & H)])])]];
      try by rewrite H.
    cbn [api_token self1] in Ht'. congruence.
  - intros t1 t2 Ht1 Ht2.
    destruct (get_query_from_input self1) as [q|e] eqn:Hq.
    2:{ left. rewrite (search_web_unread self1 net1 log e Hq).
        by rewrite (search_web_unread self2 net2 log e Hqq). }
    destruct (decide (q = [])) as [->|Hne].
    { left. rewrite (search_web_blank self1 net1 log Hq).
      by rewrite (search_web_blank self2 net2 log Hqq). }
    destruct (_build_search_url eng q) as [u|e] eqn:Hb.
    2:{ left. rewrite (search_web_unbuilt self1 net1 log q e Hq Hne Hb).
        by rewrite (search_web_unbuilt self2 net2 log q e Hqq Hne Hb). }
    right. exists (the_post t1 u), (the_post t2 u).
    split; [|split].
    + destruct (net1 (the_post t1 u)) as [r|e] eqn:Hn.
      * by rewrite (search_web_answered self1 net1 log q u t1 r).
      * by rewrite (search_web_raised self1 net1 log q u t1 e).
    + destruct (net2 (the_post t2 u)) as [r|e] eqn:Hn.
      * by rewrite (search_web_answered self2 net2 log q u t2 r).
      * by rewrite (search_web_raised self2 net2 log q u t2 e).
    + repeat (split; [done|]). done.
Qed.

Lemma X14_witness :
  snd (search_web
         (Component (VInt huge) (Plain (VStr (py "rocq"))) (VStr (py "bing")))
         (answers (Return (Requests.Response 200 (py "X")))) [])
  = [].
Proof.
  apply (proj1 (X14_token_in_header_only (VInt huge) VNone
                  (Plain (VStr (py "rocq"))) (VStr (py "bing"))
                  (answers (Return (Requests.Response 200 (py "X"))))
                  (answers (Return (Requests.Response 200 (py "X")))) [])
           digits_exceeded).
  by vm_compute.
Defined.

(** X15: a plain input that is falsy ([None], the empty string, [0]) is
    read as the empty query and gives the validation record, with no
    request; the text of a message has no such fallback, and a message
    whose text is [None] gives the query ["None"]. *)
Theorem X15_falsy_plain_input (tok eng v : pyval) (net : Requests.network)
    (log : list Requests.call) :
  truthy v = false →
  search_web (Component tok (Plain v) eng) net log
  = (Return validation_record, log)
  ∧ get_query_from_input (Component tok (Message VNone) eng)
    = Return (py "None").
Proof.
  intros Hv. split; [|reflexivity].
  apply search_web_blank. unfold get_query_from_input.
  cbn [query_input]. by rewrite Hv.
Qed.

Lemma X15_witness :
  search_web (Component VNone (Plain (VInt 0)) VNone)
    (answers (Return (Requests.Response 200 (py "X")))) []
  = (Return validation_record, []).
Proof.
  apply (X15_falsy_plain_input VNone VNone (VInt 0)). reflexivity.
Defined.

(** X16: whitespace around the input string changes nothing: a string input
    between two strings of whitespace gives the same result and the same
    request as the string itself, as a plain input and as the text of a
    message. *)
Theorem X16_surrounding_whitespace (tok eng : pyval) (pre s post : str)
    (net : Requests.network) (log : list Requests.call) :
  blank pre = true → blank post = true →
  search_web (Component tok (Plain (VStr (pre ++ s ++ post))) eng) net log
  = search_web (Component tok (Plain (VStr s)) eng) net log
  ∧ search_web (Component tok (Message (VStr (pre ++ s ++ post))) eng) net log
    = search_web (Component tok (Message (VStr s)) eng) net log.
Proof.
  intros Hpre Hpost.
  split; apply search_web_inputs; try done.
  - rewrite (get_query_of_str _ (pre ++ s ++ post)) by by left.
    rewrite (get_query_of_str _ s) by by left.
    by rewrite strip_pad.
  - rewrite (get_query_of_str _ (pre ++ s ++ post)) by by right.
    rewrite (get_query_of_str _ s) by by right.
    by rewrite strip_pad.
Qed.

Lemma X16_witness :
  search_web (demo (py "  rocq prover ") "bing")
    (answers (Return (Requests.Response 200 (py "X")))) []
  = search_web (demo (py "rocq prover") "bing")
      (answers (Return (Requests.Response 200 (py "X")))) [].
Proof.
  apply (X16_surrounding_whitespace (VStr (py "TOKEN")) (VStr (py "bing"))
           (py "  ") (py "rocq prover") (py " ")); reflexivity.
Defined.

(** X17: the record reports the engine selector as it was given, not the
    engine that was used: for a selector other than ["yandex"] and
    ["bing"] (an unset or misspelt one included) a success record holds
    that selector under [engine] and a www.google.com URL under
    [search_url]. *)
Theorem X17_engine_reported_as_given (self : component)
    (net : Requests.network) (log : list Requests.call) (d : Data) :
  fst (search_web self net log) = Return d →
  data d !! "status" = Some (VStr (py "success")) →
  engine self ≠ VStr (py "yandex") → engine self ≠ VStr (py "bing") →
  data d !! "engine" = Some (engine self)
  ∧ ∃ query q,
      get_query_from_input self = Return query
      ∧ Urllib.quote query = Return q
      ∧ data d !! "search_url"
        = Some (VStr (py "https://www.google.com/search?q=" ++ q)).
Proof.
  intros Hd Hst Hy Hbi.
  destruct (success_inv self net log d Hd Hst)
    as (query & u & t & body & Hq & Hb & _ & _ & ->).
  split; [done|].
  destruct (build_inv _ _ _ Hb)
    as (q & Hquote & [(? & _)|[(_ & ? & _)|(_ & _ & ->)]]); try done.
  by exists query, q.
Qed.

Lemma X17_witness :
  ∃ d, fst (search_web (demo (py "rocq") "Bing")
              (answers (Return (Requests.Response 200 (py "X")))) [])
       = Return d
    ∧ data d !! "engine" = Some (VStr (py "Bing"))
    ∧ data d !! "search_url"
      = Some (VStr (py "https://www.google.com/search?q=rocq")).
Proof.
  eexists. split; [reflexivity|].
  destruct (X17_engine_reported_as_given (demo (py "rocq") "Bing")
              (answers (Return (Requests.Response 200 (py "X")))) []
              _ eq_refl eq_refl) as (He & query & q & Hquery & Hq & Hu).
  - intros Hne. vm_compute in Hne. discriminate Hne.
  - intros Hne. vm_compute in Hne. discriminate Hne.
  - split; [exact He|]. vm_compute in Hquery. injection Hquery as <-.
    vm_compute in Hq. injection Hq as <-. exact Hu.
Defined.
